(** * Job application builder: the archive-and-history pipeline of main.py

    A shallow embedding of [src/main.py].  Python strings are [string]s,
    the configuration mapping is a [gmap string value], and every function
    that touches the disk, the clock or the console takes and returns an
    explicit [World]. *)

From Stdlib Require Import Ascii String NArith ZArith Lia List DecimalString.
From stdpp Require Import gmap strings list fin_maps.

Local Open Scope string_scope.

(** ** Strings *)

Module Str.

(** [a <= c <= b] on character codes, the reading of a range [a-b] in a
    regular-expression character class. *)
Definition between (a b c : ascii) : bool :=
  (N_of_ascii a <=? N_of_ascii c)%N && (N_of_ascii c <=? N_of_ascii b)%N.

(** [s.replace(old, new)] for one-character [old] and [new], the only way
    the program calls it. *)
Fixpoint replace (old new : ascii) (s : string) : string :=
  match s with
  | EmptyString => EmptyString
  | String c s' => String (if Ascii.eqb c old then new else c) (replace old new s')
  end.

(** The character class [a-zA-Z0-9_-] of line 69. *)
Definition in_class (c : ascii) : bool :=
  between "a" "z" c || between "A" "Z" c || between "0" "9" c
  || Ascii.eqb c "_" || Ascii.eqb c "-".

(** [re.sub(r"[^a-zA-Z0-9_-]", "", text)]: every character matched by the
    negated class is replaced by the empty string. *)
Fixpoint re_sub_not_in_class (s : string) : string :=
  match s with
  | EmptyString => EmptyString
  | String c s' =>
      if in_class c then String c (re_sub_not_in_class s')
      else re_sub_not_in_class s'
  end.

(** [str.lower] on one character of the ASCII range.  The program lowers
    sanitised names only, which hold no other character
    (see [create_shell_friendly_name_in_class]). *)
Definition lower_char (c : ascii) : ascii :=
  if between "A" "Z" c then ascii_of_N (N_of_ascii c + 32) else c.

Fixpoint lower (s : string) : string :=
  match s with
  | EmptyString => EmptyString
  | String c s' => String (lower_char c) (lower s')
  end.

(** All characters of a string satisfy a test. *)
Fixpoint all (p : ascii -> bool) (s : string) : bool :=
  match s with
  | EmptyString => true
  | String c s' => p c && all p s'
  end.

(** A character of the ASCII range. *)
Definition is_ascii (c : ascii) : bool := (N_of_ascii c <? 128)%N.

(** Decimal digits, for [strftime]. *)
Definition digit (n : N) : ascii := ascii_of_N (48 + n mod 10).

Definition pad2 (n : N) : string :=
  String (digit (n / 10)) (String (digit n) EmptyString).

Definition pad4 (n : N) : string :=
  String (digit (n / 1000)) (String (digit (n / 100)) (pad2 n)).

End Str.

(** ** The name sanitiser (lines 63-69) *)

Definition create_shell_friendly_name (text : string) : string :=
  let text := Str.replace "/" "-" (Str.replace " " "_" text) in
  Str.re_sub_not_in_class text.

(** ** Python values *)

(** What [yaml.safe_load] produces, for documents whose mappings have string
    keys (the data model of the program: a mapping from string keys to
    strings, lists and nested mappings). *)
#[warnings="-register-all"]
Inductive value :=
| VNone
| VBool (b : bool)
| VInt (n : Z)
| VStr (s : string)
| VList (l : list value)
| VMap (m : gmap string value).

(** Python truthiness, the test of [if not data]. *)
Definition truthy (v : value) : bool :=
  match v with
  | VNone => false
  | VBool b => b
  | VInt n => negb (n =? 0)%Z
  | VStr s => negb (String.eqb s "")
  | VList l => negb (Nat.eqb (length l) 0)
  | VMap m => negb (Nat.eqb (size m) 0)
  end.

(** [v == "..."] for a string literal on the right. *)
Definition eq_str (v : value) (s : string) : bool :=
  match v with
  | VStr s' => String.eqb s' s
  | _ => false
  end.

(** [d.get(key, default)] on a dictionary with string keys. *)
Definition dict_get (d : gmap string value) (key : string) (default : value) : value :=
  match d !! key with
  | Some v => v
  | None => default
  end.

Inductive exn :=
| AttributeError
| TypeError
| ValueError
| KeyError
| FileNotFoundError
| OSError
| YAMLError
| ParserError
| TemplateError
| CalledProcessError (stderr : string).

(** ** The world: files, clock and console *)

(** [datetime.now()]: the calendar date and [isocalendar()[1]]. *)
Record datetime := {
  year : N;
  month : N;
  day : N;
  isoweek : Z
}.

(** [strftime("%Y-%m-%d")], for the four-digit years a clock gives. *)
Definition strftime_Ymd (t : datetime) : string :=
  Str.pad4 (year t) +:+ "-" +:+ Str.pad2 (month t) +:+ "-" +:+ Str.pad2 (day t).

(** A file, by what its reader gets from it. *)
Inductive content :=
| Text (s : string)
| Yaml (doc : exn + value)
| Binary (n : N).

(** A pandas frame with the default index [0 .. len-1]: the column names of
    the header line and the rows in file order.  A cell is the Python value
    pandas holds there; a missing cell (NaN) is [VNone]: such a cell is
    equal to no string and is written as the empty text. *)
Record DataFrame := {
  columns : list string;
  rows : list (list value)
}.

(** The text of a CSV file: the cells of its header line and of its data
    lines (a cell is its text, without the quoting). *)
Record CsvFile := {
  header : list string;
  records : list (list string)
}.

Inductive level := INFO | WARNING | ERROR | CRITICAL.

(** The console lines of the program, one constructor per logging call. *)
Inductive message :=
| ConfigNotFound                      (* line 74 *)
| Generated (output_name : string)    (* line 91 *)
| RenderingError (template_name : string) (* line 93 *)
| Compiling (tex_file : string)       (* line 100 *)
| PdfCreated                          (* line 114 *)
| CompilingError (tex_file : string) (stderr : string) (* line 118 *)
| MainPdfMoved (final_name : string)  (* line 150 *)
| HistoryNotFound                     (* line 159 *)
| EntryAdded                          (* line 181 *)
| EntryExists (company : value)       (* line 183 *)
| LoggingError (e : exn)              (* line 185 *)
| ErrorLoadingData                    (* line 194 *)
| NoValidLanguage (lang : value)      (* line 209 *)
| AttachmentMissing (doc_name : string) (* line 226 *)
| ContentMissing                      (* line 234 *)
| RenderingDone.                      (* line 250 *)

(** The files the program reads or writes, each under the name of its
    path constant, the clock and the console.

    - [config_yaml]: [CONFIG_FILE]; [None] when the file does not exist,
      otherwise what opening and [yaml.safe_load] give.
    - [application_text_txt]: [CONTENT_FILE = BASE_DIR / "application_text.txt"].
    - [application_letter_text_txt]: [BASE_DIR / "application_letter_text.txt"].
    - [attachment_exists name]: whether [ATTACHMENT_DIR / name] exists.
    - [templates]: the files of [TEMPLATE_DIR] by name.
    - [applications]: the folders of [APPLICATION_DIR], each with its files.
    - [history_file]: [HISTORY_FILE]; [None] when absent, otherwise an
      exception (the file cannot be opened) or the text of the file.
    - [pd_read_csv], [pd_to_csv]: pandas, as the installation has it: the
      frame (or the exception) that [pd.read_csv] makes of a text with its
      type inference and its missing-value markers, and the text that
      [DataFrame.to_csv(index=False)] writes for a frame.
    - [history_writable]: whether [HISTORY_FILE] can be opened for writing;
      a refused write leaves the file as it was. *)
Record World := {
  now : datetime;
  config_yaml : option (exn + value);
  application_text_txt : option string;
  application_letter_text_txt : option string;
  attachment_exists : string -> bool;
  templates : gmap string content;
  applications : gmap string (gmap string content);
  history_file : option (exn + CsvFile);
  pd_read_csv : CsvFile -> exn + DataFrame;
  pd_to_csv : DataFrame -> CsvFile;
  history_writable : bool;
  console : list (level * message)
}.

Definition set_templates (t : gmap string content) (w : World) : World :=
  {| now := now w; config_yaml := config_yaml w;
     application_text_txt := application_text_txt w;
     application_letter_text_txt := application_letter_text_txt w;
     attachment_exists := attachment_exists w;
     templates := t; applications := applications w;
     history_file := history_file w;
     pd_read_csv := pd_read_csv w; pd_to_csv := pd_to_csv w;
     history_writable := history_writable w; console := console w |}.

Definition set_applications (a : gmap string (gmap string content)) (w : World) : World :=
  {| now := now w; config_yaml := config_yaml w;
     application_text_txt := application_text_txt w;
     application_letter_text_txt := application_letter_text_txt w;
     attachment_exists := attachment_exists w;
     templates := templates w; applications := a;
     history_file := history_file w;
     pd_read_csv := pd_read_csv w; pd_to_csv := pd_to_csv w;
     history_writable := history_writable w; console := console w |}.

Definition set_history (h : option (exn + CsvFile)) (w : World) : World :=
  {| now := now w; config_yaml := config_yaml w;
     application_text_txt := application_text_txt w;
     application_letter_text_txt := application_letter_text_txt w;
     attachment_exists := attachment_exists w;
     templates := templates w; applications := applications w;
     history_file := h;
     pd_read_csv := pd_read_csv w; pd_to_csv := pd_to_csv w;
     history_writable := history_writable w; console := console w |}.

Definition set_console (c : list (level * message)) (w : World) : World :=
  {| now := now w; config_yaml := config_yaml w;
     application_text_txt := application_text_txt w;
     application_letter_text_txt := application_letter_text_txt w;
     attachment_exists := attachment_exists w;
     templates := templates w; applications := applications w;
     history_file := history_file w;
     pd_read_csv := pd_read_csv w; pd_to_csv := pd_to_csv w;
     history_writable := history_writable w; console := c |}.

(** [HISTORY_FILE] by what [pd.read_csv(HISTORY_FILE)] gives: nothing when
    the file is absent, otherwise an exception or a frame. *)
Definition application_history_csv (w : World) : option (exn + DataFrame) :=
  match history_file w with
  | None => None
  | Some (inl e) => Some (inl e)
  | Some (inr text) => Some (pd_read_csv w text)
  end.

(** ** Computations: state, exceptions *)

(** A call returns a value, raises an exception, or leaves the fragment of
    Python that this development gives a meaning to ([Unmodelled]:
    [dict.update] with a list of pairs, iteration over a dictionary or
    over a string with characters outside ASCII, and pandas comparisons
    with operands that are not strings). *)
Inductive result (A : Type) :=
| Returns (a : A) (w : World)
| Raises (e : exn) (w : World)
| Unmodelled.
Arguments Returns {A} a w.
Arguments Raises {A} e w.
Arguments Unmodelled {A}.

Definition M (A : Type) : Type := World -> result A.

#[global] Instance M_ret : MRet M := fun A a w => Returns a w.

#[global] Instance M_bind : MBind M := fun A B f m w =>
  match m w with
  | Returns a w' => f a w'
  | Raises e w' => Raises e w'
  | Unmodelled => Unmodelled
  end.

Definition raise {A} (e : exn) : M A := fun w => Raises e w.

Definition unmodelled {A} : M A := fun _ => Unmodelled.

(** [try: body  except Exception as e: handler e]. *)
Definition try_except {A} (body : M A) (handler : exn -> M A) : M A := fun w =>
  match body w with
  | Raises e w' => handler e w'
  | r => r
  end.

Definition get {A} (f : World -> A) : M A := fun w => Returns (f w) w.

Definition modify (f : World -> World) : M unit := fun w => Returns tt (f w).

(** [logger.<level>(message)]. *)
Definition logger (l : level) (m : message) : M unit :=
  modify (fun w => set_console (console w ++ [(l, m)]) w).

(** [for x in l: body x]. *)
Fixpoint for_each {A} (l : list A) (body : A -> M unit) : M unit :=
  match l with
  | [] => mret tt
  | x :: l' => body x;; for_each l' body
  end.

(** The receiver of a [str] method: any other value has no such attribute. *)
Definition str_receiver (v : value) : M string :=
  match v with
  | VStr s => mret s
  | _ => raise AttributeError
  end.

(** ** The configuration loader (lines 72-78) *)

Definition load_config : M value :=
  c ← get config_yaml;
  match c with
  | None =>
      logger ERROR ConfigNotFound;;
      mret (VMap ∅)
  | Some (inl e) => raise e
  | Some (inr v) => mret v
  end.

(** ** The archiver (lines 121-150) *)

(** [target_dir.mkdir(parents=True, exist_ok=True)]. *)
Definition mkdir (folder_name : string) : M unit :=
  modify (fun w =>
    match applications w !! folder_name with
    | Some _ => w
    | None => set_applications (<[folder_name := ∅]> (applications w)) w
    end).

(** Writing a file into a folder of [APPLICATION_DIR]. *)
Definition write_target (folder_name name : string) (c : content) : M unit :=
  a ← get applications;
  match a !! folder_name with
  | None => raise FileNotFoundError
  | Some d => modify (set_applications (<[folder_name := <[name := c]> d]> a))
  end.

(** [shutil.move(TEMPLATE_DIR / src, target_dir / dst)]: the destination gets
    the file, replacing one of that name, and the source is gone. *)
Definition shutil_move (src folder_name dst : string) : M unit :=
  t ← get templates;
  match t !! src with
  | None => raise FileNotFoundError
  | Some c =>
      write_target folder_name dst c;;
      modify (fun w => set_templates (delete src (templates w)) w)
  end.

(** [shutil.copy(src, target_dir / dst)] for a file outside [TEMPLATE_DIR],
    given by what the world holds at its path: the source stays. *)
Definition shutil_copy (src : option content) (folder_name dst : string) : M unit :=
  match src with
  | None => raise FileNotFoundError
  | Some c => write_target folder_name dst c
  end.

(** Line 132. *)
Definition folder_name_of (data_str company job : string) : string :=
  data_str +:+ "_" +:+ company +:+ "_" +:+ job.

Definition archive_results (data : gmap string value) : M unit :=
  t ← get now;
  let data_str := strftime_Ymd t in
  c ← str_receiver (dict_get data "company" (VStr "unknown_company"));
  let company := Str.lower (create_shell_friendly_name c) in
  j ← str_receiver (dict_get data "job_title" (VStr "job"));
  let job := Str.lower (create_shell_friendly_name j) in
  let folder_name := folder_name_of data_str company job in
  mkdir folder_name;;
  for_each ["cv.pdf"; "application_letter.pdf"; "attachments.pdf"]
    (fun name => shutil_move name folder_name name);;
  cfg ← get config_yaml;
  shutil_copy (Yaml <$> cfg) folder_name "config.yaml";;
  txt ← get application_letter_text_txt;
  shutil_copy (Text <$> txt) folder_name "application_letter_text.txt";;
  tpl ← get templates;
  match tpl !! "main.pdf" with
  | Some _ =>
      let final_name := "application_" +:+ company +:+ "_" +:+ job +:+ ".pdf" in
      shutil_move "main.pdf" folder_name final_name;;
      logger INFO (MainPdfMoved final_name)
  | None => mret tt
  end.

(** ** The history logger (lines 153-185) *)

(** [df[name]]: the cells of a column, row by row; a row too short for the
    column has no cell there. *)
Definition column (df : DataFrame) (name : string) : M (list (option value)) :=
  match list_find (String.eqb name) (columns df) with
  | None => raise KeyError
  | Some (i, _) => mret ((fun r : list value => r !! i) <$> rows df)
  end.

(** One cell against a string: equal only if the cell is that string. *)
Definition cell_eq (s : string) (c : option value) : bool :=
  match c with
  | Some v => eq_str v s
  | None => false
  end.

(** [series == v], cell by cell, for a string [v]. *)
Definition series_eq (series : list (option value)) (v : value) : M (list bool) :=
  match v with
  | VStr s => mret (cell_eq s <$> series)
  | _ => unmodelled
  end.

(** [a & b] on two boolean series of one frame. *)
Definition series_and (a b : list bool) : list bool := zip_with andb a b.

(** [series.any()]. *)
Definition any (a : list bool) : bool := existsb id a.

(** [df.loc[len(df)] = new_row]: a row after the last one; pandas refuses a
    row that has not one cell per column. *)
Definition loc_append (df : DataFrame) (new_row : list value) : M DataFrame :=
  if Nat.eqb (length new_row) (length (columns df))
  then mret {| columns := columns df; rows := rows df ++ [new_row] |}
  else raise ValueError.

(** [pd.read_csv(HISTORY_FILE)], for a file that exists. *)
Definition read_csv : M DataFrame :=
  h ← get application_history_csv;
  match h with
  | None => raise FileNotFoundError
  | Some (inl e) => raise e
  | Some (inr df) => mret df
  end.

(** [df.to_csv(HISTORY_FILE, index=False)]: the file then holds the text
    that pandas writes for the frame; what a later [read_csv] makes of that
    text is again up to pandas. *)
Definition to_csv (df : DataFrame) : M unit :=
  writable ← get history_writable;
  if writable : bool
  then modify (fun w => set_history (Some (inr (pd_to_csv w df))) w)
  else raise OSError.

(** Lines 169-183, the body of the [try] statement. *)
Definition check_and_append (date : string) (week : Z) (company jobtitle : value)
  : M unit :=
  df ← read_csv;
  d ← column df "date";
  d ← series_eq d (VStr date);
  c ← column df "company";
  c ← series_eq c company;
  p ← column df "position";
  p ← series_eq p jobtitle;
  let exists_ := any (series_and (series_and d c) p) in
  if negb exists_ then
    let new_row := [VStr date; VInt week; company; jobtitle] in
    df' ← loc_append df new_row;
    to_csv df';;
    logger INFO EntryAdded
  else
    logger INFO (EntryExists company).

Definition log_to_history (data : gmap string value) : M unit :=
  h ← get application_history_csv;
  match h with
  | None => logger WARNING HistoryNotFound
  | Some _ =>
      t ← get now;
      let date := strftime_Ymd t in
      let week := isoweek t in
      let company := dict_get data "company" (VStr "Unknown") in
      let jobtitle := dict_get data "job_title" (VStr "Unknown") in
      try_except
        (check_and_append date week company jobtitle)
        (fun e => logger ERROR (LoggingError e))
  end.

(** ** The stages of [main] before rendering (lines 198-236) *)

(** [data.get(lang, {})]: a string is looked up, a list or a dictionary is
    not hashable, and any other key is absent from a dictionary with string
    keys. *)
Definition get_lang_data (data : gmap string value) (lang : value) : M value :=
  match lang with
  | VStr s => mret (dict_get data s (VMap ∅))
  | VList _ | VMap _ => raise TypeError
  | VNone | VBool _ | VInt _ => mret (VMap ∅)
  end.

(** [data.update(other)]: the entries of a mapping replace those of [data].
    Of the other arguments Python accepts, an empty string or list changes
    nothing, a string of characters raises [ValueError], what cannot be
    iterated raises [TypeError]; a list of key-value pairs is not given a
    meaning here. *)
Definition dict_update (data : gmap string value) (other : value) : M (gmap string value) :=
  match other with
  | VMap m => mret (m ∪ data)
  | VNone | VBool _ | VInt _ => raise TypeError
  | VStr s => if String.eqb s "" then mret data else raise ValueError
  | VList [] => mret data
  | VList (_ :: _) => unmodelled
  end.

(** Lines 198-211: the localization resolver. *)
Definition resolve_language (data : gmap string value) : M (gmap string value) :=
  let lang := dict_get data "language" (VStr "de") in
  lang_data ← get_lang_data data lang;
  data ← dict_update data lang_data;
  let data := <["lang" := lang]> data in
  if eq_str lang "en" then
    mret (<["doc_lang" := VStr "english"]> data)
  else if eq_str lang "de" then
    mret (<["doc_lang" := VStr "ngerman"]> data)
  else
    logger CRITICAL (NoValidLanguage lang);;
    mret data.

(** The items of [for doc_name in v]: the elements of a list, the
    characters of a string (given here for a string of ASCII characters,
    where a character is one byte). *)
Definition iterate (v : value) : M (list value) :=
  match v with
  | VList l => mret l
  | VStr s =>
      if Str.all Str.is_ascii s
      then mret ((fun c => VStr (String c EmptyString)) <$> list_ascii_of_string s)
      else unmodelled
  | VMap _ => unmodelled
  | VNone | VBool _ | VInt _ => raise TypeError
  end.

(** The loop of lines 219-226, with [valid_attachments] as accumulator;
    [ATTACHMENT_DIR / doc_name] is a [TypeError] unless the name is a string. *)
Fixpoint validate_loop (names : list value) (valid_attachments : list value)
  : M (list value) :=
  match names with
  | [] => mret valid_attachments
  | doc_name :: names' =>
      match doc_name with
      | VStr name =>
          exists_ ← get attachment_exists;
          if exists_ name : bool then
            validate_loop names' (valid_attachments ++ [doc_name])
          else
            logger WARNING (AttachmentMissing name);;
            validate_loop names' valid_attachments
      | _ => raise TypeError
      end
  end.

(** Lines 217-227: the attachment validator. *)
Definition validate_attachments (data : gmap string value) : M (gmap string value) :=
  names ← iterate (dict_get data "attachments" (VList []));
  valid_attachments ← validate_loop names [];
  mret (<["attachments" := VList valid_attachments]> data).

(** Lines 229-236: the content loader, reading [CONTENT_FILE]. *)
Definition load_content (data : gmap string value) : M (gmap string value) :=
  c ← get application_text_txt;
  match c with
  | Some s => mret (<["content" := VStr s]> data)
  | None =>
      logger WARNING ContentMissing;;
      mret (<["content" := VStr "Missing application letter text."]> data)
  end.

(** ** Rendering, compiling and [main] *)

(** What [subprocess.run] finds: the program cannot be started, or it exits
    with a return code, leaving its standard error and the files of its
    working directory [TEMPLATE_DIR]. *)
Inductive process :=
| NotStarted (e : exn)
| Exited (returncode : Z) (stderr : string) (cwd : gmap string content).

Section Pipeline.

(** The external collaborators: the templating engine over the files of
    [TEMPLATE_DIR] ([None] where it raises) and the document compiler. *)
Variable template : Type.
Variable get_template : gmap string content -> string -> option template.
Variable render : template -> gmap string value -> option string.
Variable xelatex : gmap string content -> string -> process.

(** Lines 81-93.  [open(output_path, "w")] creates the file empty before
    the template is rendered into it. *)
Definition render_document (template_name output_name : string)
    (data : gmap string value) : M unit :=
  try_except
    (t ← get templates;
     match get_template t template_name with
     | None => raise TemplateError
     | Some tpl =>
         modify (set_templates (<[output_name := Text ""]> t));;
         match render tpl data with
         | None => raise TemplateError
         | Some s =>
             modify (set_templates (<[output_name := Text s]> t));;
             logger INFO (Generated output_name)
         end
     end)
    (fun _ => logger ERROR (RenderingError template_name)).

(** Lines 96-118.  [check=True] turns a return code other than zero into
    [CalledProcessError], the only exception handled here; the console
    gets the end of the standard error, held whole in the message. *)
Definition compile_latex (tex_file : string) : M unit :=
  logger INFO (Compiling tex_file);;
  try_except
    (t ← get templates;
     match xelatex t tex_file with
     | NotStarted e => raise e
     | Exited returncode stderr cwd =>
         modify (set_templates cwd);;
         if (returncode =? 0)%Z then logger INFO PdfCreated
         else raise (CalledProcessError stderr)
     end)
    (fun e =>
       match e with
       | CalledProcessError stderr => logger ERROR (CompilingError tex_file stderr)
       | _ => raise e
       end).

Definition docs_to_build : list (string * string) :=
  [("attachments.tex.j2", "attachments.tex");
   ("cv.tex.j2", "cv.tex");
   ("application_letter.tex.j2", "application_letter.tex");
   ("main.tex.j2", "main.tex")].

(** Lines 188-252. *)
Definition main : M unit :=
  data ← load_config;
  if negb (truthy data) then
    logger ERROR ErrorLoadingData
  else
    data ← match data with
           | VMap d => mret d
           | _ => raise AttributeError
           end;
    data ← resolve_language data;
    data ← validate_attachments data;
    data ← load_content data;
    for_each docs_to_build
      (fun '(template_name, output) =>
         render_document template_name output data;;
         compile_latex output);;
    logger INFO RenderingDone;;
    archive_results data;;
    log_to_history data.

End Pipeline.


(** * Specification vocabulary *)

(** The class [[A-Za-z0-9_-]], character by character. *)
Definition alphabet : string :=
  "abcdefghijklmnopqrstuvwxyzABCDEFGHIJKLMNOPQRSTUVWXYZ0123456789_-".

(** Membership in the class, by comparison with the 64 characters. *)
Definition in_alphabet (c : ascii) : bool :=
  existsb (Ascii.eqb c) (list_ascii_of_string alphabet).

(** Every character [old] of a text replaced by [new]. *)
Definition replace_each (old new : ascii) (text : list ascii) : list ascii :=
  List.map (fun c => if Ascii.eqb c old then new else c) text.

(** The contract of section 4.1 on the characters of a text: spaces
    replaced by underscores, forward slashes by hyphens, then every
    character outside [[A-Za-z0-9_-]] removed. *)
Definition sanitize_spec (text : string) : string :=
  string_of_list_ascii
    (List.filter in_alphabet
       (replace_each "/" "-" (replace_each " " "_" (list_ascii_of_string text)))).

(** The header of the history table. *)
Definition history_columns : list string := ["date"; "week"; "company"; "position"].

(** The cell of a row under a column name. *)
Definition cell (df : DataFrame) (name : string) (r : list value) : option value :=
  match list_find (String.eqb name) (columns df) with
  | Some (i, _) => r !! i
  | None => None
  end.

(** The (date, company, position) triple of a row. *)
Definition row_key (df : DataFrame) (r : list value)
  : option value * option value * option value :=
  (cell df "date" r, cell df "company" r, cell df "position" r).

(** The table invariant: no two rows share their triple. *)
Definition unique_rows (df : DataFrame) : Prop := NoDup (row_key df <$> rows df).

(** A row holds the triple [(date, company, position)]. *)
Definition same_entry (df : DataFrame) (date company position : string)
    (r : list value) : bool :=
  cell_eq date (cell df "date" r)
  && cell_eq company (cell df "company" r)
  && cell_eq position (cell df "position" r).

(** The number of rows that hold the triple. *)
Definition count_entries (df : DataFrame) (date company position : string) : nat :=
  length (List.filter (same_entry df date company position) (rows df)).

(** The frame has a column of that name. *)
Definition has_column (df : DataFrame) (name : string) : bool :=
  match list_find (String.eqb name) (columns df) with
  | Some _ => true
  | None => false
  end.

(** The three columns of the existence check are there. *)
Definition columns_present (df : DataFrame) : bool :=
  has_column df "date" && has_column df "company" && has_column df "position".

(** The frame with one more row at the end. *)
Definition with_row (df : DataFrame) (r : list value) : DataFrame :=
  {| columns := columns df; rows := rows df ++ [r] |}.

(** A line more on the console, nothing else changed. *)
Definition logged (l : level) (m : message) (w : World) : World :=
  set_console (console w ++ [(l, m)]) w.

(** The world after logging to a table that could be read. *)
Definition after_logging (w : World) (df : DataFrame) (company position : string) : World :=
  let date := strftime_Ymd (now w) in
  if negb (columns_present df) then logged ERROR (LoggingError KeyError) w
  else if existsb (same_entry df date company position) (rows df)
  then logged INFO (EntryExists (VStr company)) w
  else if negb (Nat.eqb (length (columns df)) 4)
  then logged ERROR (LoggingError ValueError) w
  else if history_writable w
  then logged INFO EntryAdded
         (set_history (Some (inr (pd_to_csv w (with_row df
            [VStr date; VInt (isoweek (now w)); VStr company; VStr position])))) w)
  else logged ERROR (LoggingError OSError) w.

(** The console lines of a run that finds no usable configuration. *)
Definition abort_lines (w : World) : list (level * message) :=
  match config_yaml w with
  | None => [(ERROR, ConfigNotFound); (ERROR, ErrorLoadingData)]
  | Some _ => [(ERROR, ErrorLoadingData)]
  end.

(** [ensures m w Q]: run from [w], [m] ends, by return or by exception, in a
    world that satisfies [Q]. *)
Definition ensures {A} (m : M A) (w : World) (Q : World -> Prop) : Prop :=
  match m w with
  | Returns _ w' | Raises _ w' => Q w'
  | Unmodelled => False
  end.

(** [preserves I m]: from a world in [I], [m] ends in a world in [I]. *)
Definition preserves {A} (I : World -> Prop) (m : M A) : Prop :=
  forall w, I w -> ensures m w I.

(** The folder [f] exists and the other folders are those of [w0]. *)
Definition archived_into (w0 : World) (f : string) (w : World) : Prop :=
  is_Some (applications w !! f)
  /\ forall g, g ≠ f -> applications w !! g = applications w0 !! g.

(** The warnings of the validator, one for each requested name that is
    missing, in request order. *)
Definition missing_warnings (w : World) (names : list string) : list (level * message) :=
  (fun name => (WARNING, AttachmentMissing name))
    <$> List.filter (fun name => negb (attachment_exists w name)) names.

(** ** pandas on the cells of the examples *)

(** [read_csv] and [to_csv] for the sample installations below.  Exact for
    files whose lines have at most as many cells as the header and whose
    columns hold decimal integers only, or hold at least one cell that is
    neither a number, a truth value nor a missing-value marker; missing
    cells may occur in such a text column.  Columns that pandas reads as
    floats or booleans (integers with missing cells, real numbers,
    [True]/[False]) are not covered: they are left as text here, and no
    example has one. *)
Module Pandas.

(** The texts that [read_csv] takes for a missing value. *)
Definition na_values : list string :=
  [""; "#N/A"; "#N/A N/A"; "#NA"; "-1.#IND"; "-1.#QNAN"; "-NaN"; "-nan";
   "1.#IND"; "1.#QNAN"; "<NA>"; "N/A"; "NA"; "NULL"; "NaN"; "None"; "n/a";
   "nan"; "null"].

Definition is_na (s : string) : bool := existsb (String.eqb s) na_values.

Definition unsigned (s : string) : option Z :=
  if negb (String.eqb s "") && Str.all (Str.between "0" "9") s
  then Z.of_int <$> NilZero.int_of_string s
  else None.

(** A decimal integer, with or without sign. *)
Definition parse_int (s : string) : option Z :=
  match s with
  | String c s' =>
      if Ascii.eqb c "-" then Z.opp <$> unsigned s'
      else if Ascii.eqb c "+" then unsigned s'
      else unsigned s
  | EmptyString => None
  end.

(** The cell of a line under column [j]; a short line has a missing cell. *)
Definition text_at (j : nat) (line : list string) : string := nth j line "".

(** A column is read as integers when it has a cell and every cell is a
    decimal integer. *)
Definition int_column (lines : list (list string)) (j : nat) : bool :=
  negb (Nat.eqb (length lines) 0)
  && forallb (fun line => bool_decide (is_Some (parse_int (text_at j line)))) lines.

Definition read_cell (as_int : bool) (s : string) : value :=
  if as_int then
    match parse_int s with
    | Some n => VInt n
    | None => VStr s
    end
  else if is_na s then VNone
  else VStr s.

Definition read_line (lines : list (list string)) (width : nat) (line : list string)
  : list value :=
  (fun j => read_cell (int_column lines j) (text_at j line)) <$> seq 0 width.

Definition read (file : CsvFile) : exn + DataFrame :=
  if Nat.eqb (length (header file)) 0 then inl ParserError
  else if existsb (fun line => Nat.ltb (length (header file)) (length line))
            (records file)
  then inl ParserError
  else inr {| columns := header file;
              rows := read_line (records file) (length (header file))
                        <$> records file |}.

Definition write_cell (v : value) : string :=
  match v with
  | VStr s => s
  | VInt n => NilZero.string_of_int (Z.to_int n)
  | VBool true => "True"
  | VBool false => "False"
  | VNone | VList _ | VMap _ => ""
  end.

Definition write (df : DataFrame) : CsvFile :=
  {| header := columns df;
     records := (fun r : list value => write_cell <$> r) <$> rows df |}.

End Pandas.

(** ** A sample installation *)

Module Sample.

Definition clock : datetime :=
  {| year := 2024; month := 3; day := 1; isoweek := 9 |}.

(** A configuration in English for two attachments. *)
Definition config : gmap string value :=
  {[ "language" := VStr "en";
     "en" := VMap {[ "company" := VStr "Acme" ]};
     "job_title" := VStr "Engineer";
     "attachments" := VList [VStr "a.pdf"; VStr "b.pdf"] ]}.

(** The data mapping of an application to Acme Corp. *)
Definition application : gmap string value :=
  {[ "company" := VStr "Acme Corp"; "job_title" := VStr "Senior Eng/Lead" ]}.

(** The history file and the frame that pandas reads from it. *)
Definition history_text : CsvFile :=
  {| header := history_columns;
     records := [["2024-02-27"; "9"; "Initech"; "Developer"]] |}.

Definition history : DataFrame :=
  {| columns := history_columns;
     rows := [[VStr "2024-02-27"; VInt 9; VStr "Initech"; VStr "Developer"]] |}.

(** The compiled documents, ready to be archived. *)
Definition compiled : gmap string content :=
  {[ "cv.pdf" := Binary 1; "application_letter.pdf" := Binary 2;
     "attachments.pdf" := Binary 3; "main.pdf" := Binary 4 ]}.

(** The letter is in [CONTENT_FILE]; [application_letter_text.txt] holds
    another text. *)
Definition world : World :=
  {| now := clock;
     config_yaml := Some (inr (VMap config));
     application_text_txt := Some "Dear hiring team";
     application_letter_text_txt := Some "An older draft";
     attachment_exists := String.eqb "a.pdf";
     templates := compiled;
     applications := ∅;
     history_file := Some (inr history_text);
     pd_read_csv := Pandas.read;
     pd_to_csv := Pandas.write;
     history_writable := true;
     console := [] |}.

(** The same installation without [application_letter_text.txt]. *)
Definition world_one_letter : World :=
  {| now := clock;
     config_yaml := Some (inr (VMap config));
     application_text_txt := Some "Dear hiring team";
     application_letter_text_txt := None;
     attachment_exists := String.eqb "a.pdf";
     templates := compiled;
     applications := ∅;
     history_file := Some (inr history_text);
     pd_read_csv := Pandas.read;
     pd_to_csv := Pandas.write;
     history_writable := true;
     console := [] |}.

(** The same installation without [config.yaml]. *)
Definition world_without_config : World :=
  {| now := clock;
     config_yaml := None;
     application_text_txt := Some "Dear hiring team";
     application_letter_text_txt := Some "An older draft";
     attachment_exists := String.eqb "a.pdf";
     templates := compiled;
     applications := ∅;
     history_file := Some (inr history_text);
     pd_read_csv := Pandas.read;
     pd_to_csv := Pandas.write;
     history_writable := true;
     console := [] |}.

(** A templating engine that knows every template and renders the letter
    text, and a compiler that turns [x.tex] into a document [x.pdf]
    (here: adds [main.pdf], whatever the source). *)
Definition get_template (dir : gmap string content) (name : string) : option string :=
  Some name.

Definition render (tpl : string) (data : gmap string value) : option string :=
  match data !! "content" with
  | Some (VStr s) => Some s
  | _ => None
  end.

Definition xelatex (dir : gmap string content) (tex_file : string) : process :=
  Exited 0 "" (<["main.pdf" := Binary 4]> dir).

End Sample.

(** [main] with the sample collaborators. *)
Definition sample_main : M unit :=
  main string Sample.get_template Sample.render Sample.xelatex.

(** ** Vocabulary of the further properties *)

(** The characters of an archive name: [[a-z0-9_-]]. *)
Definition lower_class (c : ascii) : bool :=
  Str.between "a" "z" c || Str.between "0" "9" c
  || Ascii.eqb c "_" || Ascii.eqb c "-".

(** Line 148. *)
Definition final_name_of (company job : string) : string :=
  "application_" +:+ company +:+ "_" +:+ job +:+ ".pdf".

(** [triple P m Q E]: from a world in [P], [m] returns in a world in [Q] or
    raises in a world in [E], whenever the run stays in the fragment of
    Python that has a meaning here. *)
Definition triple {A} (P : World -> Prop) (m : M A) (Q E : World -> Prop) : Prop :=
  forall w, P w ->
    match m w with
    | Returns _ w' => Q w'
    | Raises _ w' => E w'
    | Unmodelled => True
    end.

(** [keeps I m]: [m] ends in [I] when started in [I]. *)
Definition keeps {A} (I : World -> Prop) (m : M A) : Prop := triple I m I I.

(** The file names that [compile_latex] announces on the console lines. *)
Definition compiling_lines (lines : list (level * message)) : list string :=
  flat_map (fun line => match snd line with
                        | Compiling tex_file => [tex_file]
                        | _ => []
                        end) lines.

(** The files that the program only reads, and the clock, are those of [w0]. *)
Definition inputs_as_in (w0 w : World) : Prop :=
  now w = now w0
  /\ config_yaml w = config_yaml w0
  /\ application_text_txt w = application_text_txt w0
  /\ application_letter_text_txt w = application_letter_text_txt w0
  /\ attachment_exists w = attachment_exists w0.

(** The console of [w] is the console of [w0] with more lines at the end. *)
Definition console_extends (w0 w : World) : Prop :=
  exists lines, console w = (console w0 ++ lines)%list.

(** Everything but the console and the files of [TEMPLATE_DIR] is as in [w0]. *)
Definition outside_templates_as_in (w0 w : World) : Prop :=
  inputs_as_in w0 w
  /\ applications w = applications w0
  /\ application_history_csv w = application_history_csv w0
  /\ history_writable w = history_writable w0.

(** The world in which a run ended, and how it ended. *)
Definition final_world {A} (r : result A) (w0 : World) : World :=
  match r with
  | Returns _ w | Raises _ w => w
  | Unmodelled => w0
  end.

Definition returned {A} (r : result A) : bool :=
  match r with
  | Returns _ _ => true
  | _ => false
  end.

Definition raised {A} (r : result A) : option exn :=
  match r with
  | Raises e _ => Some e
  | _ => None
  end.

(** ** Further sample data *)

Module Cases.

(** Only the CV has been compiled. *)
Definition partly_compiled : World :=
  set_templates {[ "cv.pdf" := Binary 1 ]} Sample.world.

(** A history table with a fifth column. *)
Definition wide_history : DataFrame :=
  {| columns := ["date"; "week"; "company"; "position"; "notes"];
     rows := [[VStr "2024-02-27"; VInt 9; VStr "Initech"; VStr "Developer"; VStr "call back"]] |}.

(** A history table with today's entry under a week that is no number. *)
Definition history_other_week : DataFrame :=
  {| columns := history_columns;
     rows := [[VStr "2024-02-27"; VStr "9"; VStr "Initech"; VStr "Developer"];
              [VStr "2024-03-01"; VStr "tbd"; VStr "Acme Corp"; VStr "Senior Eng/Lead"]] |}.

(** The sample installation with the text of a frame as history file. *)
Definition with_history (df : DataFrame) : World :=
  set_history (Some (inr (Pandas.write df))) Sample.world.

(** A history file with only its header line, and an application to a
    company whose name is a number. *)
Definition empty_history : CsvFile :=
  {| header := history_columns; records := [] |}.

Definition application_42 : gmap string value :=
  {[ "company" := VStr "42"; "job_title" := VStr "Developer" ]}.

Definition world_empty_history : World :=
  set_history (Some (inr empty_history)) Sample.world.



(** Configurations: French, an empty English section, an empty list of
    attachments, a number among the attachments, no job data at all. *)
Definition config_fr : gmap string value :=
  {[ "language" := VStr "fr"; "company" := VStr "Acme" ]}.

Definition config_empty_section : gmap string value :=
  {[ "language" := VStr "en"; "en" := VNone ]}.

Definition config_no_attachments : gmap string value :=
  {[ "language" := VStr "en"; "attachments" := VNone ]}.

Definition config_bad_entry : gmap string value :=
  {[ "attachments" := VList [VStr "b.pdf"; VInt 7; VStr "a.pdf"] ]}.

Definition config_numbers : gmap string value :=
  {[ "company" := VInt 42; "job_title" := VStr "Engineer" ]}.

Definition config_plain : gmap string value :=
  {[ "attachments" := VList [] ]}.

(** A configuration file that holds a list, not a mapping. *)
Definition world_list_config : World :=
  {| now := Sample.clock;
     config_yaml := Some (inr (VList [VStr "language"; VStr "en"]));
     application_text_txt := Some "Dear hiring team";
     application_letter_text_txt := Some "An older draft";
     attachment_exists := String.eqb "a.pdf";
     templates := Sample.compiled;
     applications := ∅;
     history_file := Some (inr Sample.history_text);
     pd_read_csv := Pandas.read;
     pd_to_csv := Pandas.write;
     history_writable := true;
     console := [] |}.

End Cases.

(** * Properties *)

(** ** The name sanitiser *)

Example sanitize_acme : create_shell_friendly_name "Acme Corp" = "Acme_Corp".
Proof. reflexivity. Qed.

Example sanitize_job :
  create_shell_friendly_name "Senior Eng/Lead (m/f)!" = "Senior_Eng-Lead_m-f".
Proof. reflexivity. Qed.

Lemma in_alphabet_in_class (c : ascii) : in_alphabet c = Str.in_class c.
Proof. destruct c as [[] [] [] [] [] [] [] []]; vm_compute; reflexivity. Qed.

Lemma in_class_alphabet (c : ascii) :
  Str.in_class c = true <-> In c (list_ascii_of_string alphabet).
Proof.
  rewrite <- in_alphabet_in_class. unfold in_alphabet. rewrite existsb_exists. split.
  - intros (x & Hin & Heq). apply Ascii.eqb_eq in Heq. subst x. exact Hin.
  - intros H. exists c. split; [exact H|apply Ascii.eqb_refl].
Qed.

Lemma in_class_not_space (c : ascii) :
  Str.in_class c = true -> Ascii.eqb c " " = false /\ Ascii.eqb c "/" = false.
Proof.
  destruct c as [[] [] [] [] [] [] [] []]; vm_compute; intros H;
    split; try reflexivity; discriminate.
Qed.

Lemma re_sub_all_in_class (s : string) :
  Str.all Str.in_class (Str.re_sub_not_in_class s) = true.
Proof.
  induction s as [|c s IH]; simpl; [reflexivity|].
  destruct (Str.in_class c) eqn:Hc; simpl; [|exact IH].
  rewrite Hc, IH. reflexivity.
Qed.

Lemma create_shell_friendly_name_in_class (text : string) :
  Str.all Str.in_class (create_shell_friendly_name text) = true.
Proof. apply re_sub_all_in_class. Qed.

Lemma create_shell_friendly_name_fixed (s : string) :
  Str.all Str.in_class s = true -> create_shell_friendly_name s = s.
Proof.
  unfold create_shell_friendly_name.
  induction s as [|c s IH]; simpl; [reflexivity|].
  intros H. apply andb_prop in H as [Hc Hs].
  destruct (in_class_not_space c Hc) as [Hsp Hsl].
  rewrite Hsp, Hsl. simpl. rewrite Hc. f_equal. exact (IH Hs).
Qed.

Lemma create_shell_friendly_name_cons (c : ascii) (s : string) :
  create_shell_friendly_name (String c s)
  = if Ascii.eqb c " " then String "_" (create_shell_friendly_name s)
    else if Ascii.eqb c "/" then String "-" (create_shell_friendly_name s)
    else if Str.in_class c then String c (create_shell_friendly_name s)
    else create_shell_friendly_name s.
Proof.
  unfold create_shell_friendly_name. simpl.
  destruct (Ascii.eqb_spec c " ") as [->|Hsp]; [reflexivity|]. simpl.
  destruct (Ascii.eqb_spec c "/") as [->|Hsl]; reflexivity.
Qed.

Lemma sanitize_spec_cons (c : ascii) (s : string) :
  sanitize_spec (String c s)
  = if Ascii.eqb c " " then String "_" (sanitize_spec s)
    else if Ascii.eqb c "/" then String "-" (sanitize_spec s)
    else if in_alphabet c then String c (sanitize_spec s)
    else sanitize_spec s.
Proof.
  unfold sanitize_spec, replace_each. cbn [list_ascii_of_string List.map List.filter].
  destruct (Ascii.eqb_spec c " ") as [->|Hsp]; [reflexivity|].
  destruct (Ascii.eqb_spec c "/") as [->|Hsl]; [reflexivity|].
  destruct (in_alphabet c); reflexivity.
Qed.

Lemma create_shell_friendly_name_spec (text : string) :
  create_shell_friendly_name text = sanitize_spec text.
Proof.
  induction text as [|c s IH]; [reflexivity|].
  rewrite create_shell_friendly_name_cons, sanitize_spec_cons, in_alphabet_in_class, IH.
  reflexivity.
Qed.

(** C3: for every input the sanitiser does what the contract says on the
    characters of the text: spaces replaced by underscores, forward slashes
    by hyphens, then every character that is not one of the 64 characters
    of [[A-Za-z0-9_-]] removed, and every other character kept in place;
    so the output holds characters of [[A-Za-z0-9_-]] only. *)
Theorem sanitizer_contract (text : string) :
  create_shell_friendly_name text
  = string_of_list_ascii
      (List.filter in_alphabet
         (replace_each "/" "-" (replace_each " " "_" (list_ascii_of_string text))))
  /\ Forall (fun c => In c (list_ascii_of_string alphabet))
       (list_ascii_of_string (create_shell_friendly_name text)).
Proof.
  split; [apply create_shell_friendly_name_spec|].
  pose proof (create_shell_friendly_name_in_class text) as H.
  induction (create_shell_friendly_name text) as [|c s IH]; simpl in *.
  - constructor.
  - apply andb_prop in H as [Hc Hs]. constructor; [|exact (IH Hs)].
    apply in_class_alphabet, Hc.
Qed.

(** C9: the sanitiser is idempotent. *)
Theorem sanitizer_idempotent (s : string) :
  create_shell_friendly_name (create_shell_friendly_name s)
    = create_shell_friendly_name s.
Proof.
  apply create_shell_friendly_name_fixed, create_shell_friendly_name_in_class.
Qed.


(** ** Reasoning about computations *)

Lemma run_bind {A B} (m : M A) (f : A -> M B) (w : World) :
  (m ≫= f) w =
    match m w with
    | Returns a w' => f a w'
    | Raises e w' => Raises e w'
    | Unmodelled => Unmodelled
    end.
Proof. reflexivity. Qed.

Lemma returned_final (r : result unit) (w0 : World) :
  returned r = true -> r = Returns tt (final_world r w0).
Proof. destruct r as [[] w|e w|]; (reflexivity || discriminate). Qed.

Lemma raised_final {A} (r : result A) (e : exn) (w0 : World) :
  raised r = Some e -> r = Raises e (final_world r w0).
Proof.
  destruct r as [a w|e' w|]; try discriminate. intros [= ->]. reflexivity.
Qed.

Lemma Returns_world {A} (a a' : A) (w w' : World) :
  Returns a w = Returns a' w' -> w = w'.
Proof. intros H. injection H as _ H. exact H. Qed.

Lemma preserves_bind {A B} (I : World -> Prop) (m : M A) (f : A -> M B) :
  preserves I m -> (forall a, preserves I (f a)) -> preserves I (m ≫= f).
Proof.
  intros Hm Hf w Hw. specialize (Hm w Hw).
  unfold ensures, mbind, M_bind in *.
  destruct (m w) as [a w'|e w'|]; [|exact Hm|exact Hm].
  apply (Hf a w' Hm).
Qed.

Lemma preserves_ret {A} (I : World -> Prop) (a : A) : preserves I (mret a).
Proof. intros w Hw. exact Hw. Qed.

Lemma preserves_raise {A} (I : World -> Prop) (e : exn) : preserves I (@raise A e).
Proof. intros w Hw. exact Hw. Qed.

Lemma preserves_get {A} (I : World -> Prop) (f : World -> A) : preserves I (get f).
Proof. intros w Hw. exact Hw. Qed.

Lemma preserves_modify (I : World -> Prop) (f : World -> World) :
  (forall w, I w -> I (f w)) -> preserves I (modify f).
Proof. intros H w Hw. exact (H w Hw). Qed.

Lemma preserves_for_each {A} (I : World -> Prop) (l : list A) (body : A -> M unit) :
  (forall x, preserves I (body x)) -> preserves I (for_each l body).
Proof.
  intros H. induction l as [|x l IH]; simpl.
  - apply preserves_ret.
  - apply preserves_bind; [apply H|intros _; exact IH].
Qed.

(** ** The archiver *)

Lemma archived_into_logger w0 f l m : preserves (archived_into w0 f) (logger l m).
Proof. apply preserves_modify. intros w Hw. exact Hw. Qed.

Lemma archived_into_write w0 f name c :
  preserves (archived_into w0 f) (write_target f name c).
Proof.
  intros w [Hf Hg]. unfold ensures, write_target, mbind, M_bind, get, modify, raise.
  destruct (applications w !! f) as [d|] eqn:Ha; simpl.
  - split; simpl; [rewrite lookup_insert_eq; eauto|].
    intros g Hne. rewrite lookup_insert_ne by congruence. auto.
  - destruct Hf as [? Hf]; discriminate Hf.
Qed.

Lemma archived_into_move w0 f src dst :
  preserves (archived_into w0 f) (shutil_move src f dst).
Proof.
  intros w Hw. unfold shutil_move, ensures.
  unfold mbind at 1. unfold M_bind, get.
  destruct (templates w !! src) as [c|]; [|exact Hw].
  apply (preserves_bind (archived_into w0 f)); [apply archived_into_write| |exact Hw].
  intros _. apply preserves_modify. intros w' Hw'. exact Hw'.
Qed.

Lemma ensures_bind {A B} (I : World -> Prop) (m : M A) (f : A -> M B) w :
  ensures m w I -> (forall a, preserves I (f a)) -> ensures (m ≫= f) w I.
Proof.
  intros Hm Hf. unfold ensures, mbind, M_bind in *.
  destruct (m w) as [a w'|e w'|]; [|exact Hm|exact Hm].
  apply (Hf a w' Hm).
Qed.

Lemma ensures_get_bind {A B} (g : World -> A) (f : A -> M B) w Q :
  ensures (f (g w)) w Q -> ensures (get g ≫= f) w Q.
Proof. intros H. exact H. Qed.

Lemma ensures_ret_bind {A B} (a : A) (f : A -> M B) w Q :
  ensures (f a) w Q -> ensures (mret a ≫= f) w Q.
Proof. intros H. exact H. Qed.

Lemma archived_into_mkdir w f : ensures (mkdir f) w (archived_into w f).
Proof.
  unfold ensures, mkdir, modify.
  destruct (applications w !! f) as [d|] eqn:Hd.
  - split; [rewrite Hd; eauto|reflexivity].
  - split; simpl; [rewrite lookup_insert_eq; eauto|].
    intros g Hne. rewrite lookup_insert_ne by congruence. reflexivity.
Qed.

Lemma archived_into_copy w0 f src dst :
  preserves (archived_into w0 f) (shutil_copy src f dst).
Proof.
  destruct src as [c|]; simpl; [apply archived_into_write|apply preserves_raise].
Qed.

Lemma archive_results_folder data w c j :
  dict_get data "company" (VStr "unknown_company") = VStr c ->
  dict_get data "job_title" (VStr "job") = VStr j ->
  ensures (archive_results data) w
    (archived_into w
       (folder_name_of (strftime_Ymd (now w))
          (Str.lower (create_shell_friendly_name c))
          (Str.lower (create_shell_friendly_name j)))).
Proof.
  intros Hc Hj. unfold archive_results. rewrite Hc, Hj.
  apply ensures_get_bind, ensures_ret_bind, ensures_ret_bind.
  apply ensures_bind; [apply archived_into_mkdir|intros _].
  apply preserves_bind; [apply preserves_for_each; intros; apply archived_into_move|intros _].
  apply preserves_bind; [apply preserves_get|intros cfg].
  apply preserves_bind; [apply archived_into_copy|intros _].
  apply preserves_bind; [apply preserves_get|intros txt].
  apply preserves_bind; [apply archived_into_copy|intros _].
  apply preserves_bind; [apply preserves_get|intros tpl].
  destruct (tpl !! "main.pdf"); [|apply preserves_ret].
  apply preserves_bind; [apply archived_into_move|intros _].
  apply archived_into_logger.
Qed.

(** C4: on 2024-03-01, for the company "Acme Corp" and the job title
    "Senior Eng/Lead", the folder name that the archiver computes is
    "2024-03-01_acme_corp_senior_eng-lead"; the archiver ends with that
    folder in place and no other folder touched. *)
Theorem archive_folder_example (w : World) (data : gmap string value) :
  year (now w) = 2024%N -> month (now w) = 3%N -> day (now w) = 1%N ->
  data !! "company" = Some (VStr "Acme Corp") ->
  data !! "job_title" = Some (VStr "Senior Eng/Lead") ->
  folder_name_of (strftime_Ymd (now w))
    (Str.lower (create_shell_friendly_name "Acme Corp"))
    (Str.lower (create_shell_friendly_name "Senior Eng/Lead"))
  = "2024-03-01_acme_corp_senior_eng-lead"
  /\ ensures (archive_results data) w
       (archived_into w "2024-03-01_acme_corp_senior_eng-lead").
Proof.
  intros Hy Hm Hd Hc Hj.
  assert (Hname : folder_name_of (strftime_Ymd (now w))
    (Str.lower (create_shell_friendly_name "Acme Corp"))
    (Str.lower (create_shell_friendly_name "Senior Eng/Lead"))
  = "2024-03-01_acme_corp_senior_eng-lead").
  { unfold strftime_Ymd. rewrite Hy, Hm, Hd. reflexivity. }
  split; [exact Hname|]. rewrite <- Hname.
  apply archive_results_folder; unfold dict_get; [rewrite Hc|rewrite Hj]; reflexivity.
Qed.

(** ** The history logger *)

Lemma column_cells (df : DataFrame) (name : string) (w : World) :
  column df name w =
    match list_find (String.eqb name) (columns df) with
    | Some _ => Returns (cell df name <$> rows df) w
    | None => Raises KeyError w
    end.
Proof.
  unfold column, cell.
  destruct (list_find (String.eqb name) (columns df)) as [[i x]|]; reflexivity.
Qed.

Lemma any_same_entry (df : DataFrame) (date company position : string) (l : list (list value)) :
  any (series_and
         (series_and (cell_eq date <$> (cell df "date" <$> l))
                     (cell_eq company <$> (cell df "company" <$> l)))
         (cell_eq position <$> (cell df "position" <$> l)))
  = existsb (same_entry df date company position) l.
Proof.
  induction l as [|r l IH]; [reflexivity|].
  unfold any, series_and, same_entry in *. cbn [fmap list_fmap zip_with existsb id].
  rewrite IH. reflexivity.
Qed.

Lemma check_and_append_run (w : World) (df : DataFrame) (date : string) (week : Z)
    (company position : string) :
  application_history_csv w = Some (inr df) ->
  check_and_append date week (VStr company) (VStr position) w =
    if negb (columns_present df) then Raises KeyError w
    else if existsb (same_entry df date company position) (rows df)
    then Returns tt (logged INFO (EntryExists (VStr company)) w)
    else if negb (Nat.eqb (length (columns df)) 4) then Raises ValueError w
    else if history_writable w
    then Returns tt (logged INFO EntryAdded
           (set_history (Some (inr (pd_to_csv w (with_row df
              [VStr date; VInt week; VStr company; VStr position])))) w))
    else Raises OSError w.
Proof.
  intros Hh. unfold check_and_append, columns_present, has_column.
  rewrite run_bind. unfold read_csv. rewrite run_bind. unfold get at 1.
  rewrite Hh. unfold mret at 1, M_ret at 1.
  rewrite run_bind, column_cells.
  destruct (list_find (String.eqb "date") (columns df)); [|reflexivity].
  rewrite run_bind. unfold series_eq at 1, mret at 1, M_ret at 1.
  rewrite run_bind, column_cells.
  destruct (list_find (String.eqb "company") (columns df)); [|reflexivity].
  rewrite run_bind. unfold series_eq at 1, mret at 1, M_ret at 1.
  rewrite run_bind, column_cells.
  destruct (list_find (String.eqb "position") (columns df)); [|reflexivity].
  rewrite run_bind. unfold series_eq at 1, mret at 1, M_ret at 1.
  rewrite any_same_entry. cbn [andb negb].
  destruct (existsb _ _); [reflexivity|]. cbn [negb].
  rewrite run_bind. unfold loc_append. cbn [length].
  rewrite Nat.eqb_sym.
  destruct (Nat.eqb (length (columns df)) 4); [|reflexivity].
  cbn [negb]. unfold mret at 1, M_ret at 1.
  rewrite run_bind. unfold to_csv. rewrite run_bind. unfold get at 1.
  destruct (history_writable w) eqn:Hw; [|reflexivity].
  unfold modify at 1, logger, modify, logged, with_row. cbn. reflexivity.
Qed.

Lemma log_to_history_absent (data : gmap string value) (w : World) :
  application_history_csv w = None ->
  log_to_history data w = Returns tt (logged WARNING HistoryNotFound w).
Proof.
  intros Hh. unfold log_to_history. rewrite run_bind. unfold get at 1.
  rewrite Hh. reflexivity.
Qed.

Lemma log_to_history_try (data : gmap string value) (w : World) :
  application_history_csv w <> None ->
  log_to_history data w =
    match check_and_append (strftime_Ymd (now w)) (isoweek (now w))
            (dict_get data "company" (VStr "Unknown"))
            (dict_get data "job_title" (VStr "Unknown")) w with
    | Raises e w' => Returns tt (logged ERROR (LoggingError e) w')
    | r => r
    end.
Proof.
  intros Hh. unfold log_to_history. rewrite run_bind. unfold get at 1.
  destruct (application_history_csv w); [|congruence].
  rewrite run_bind. unfold get at 1. unfold try_except.
  destruct (check_and_append _ _ _ _ w); reflexivity.
Qed.

Lemma log_to_history_unreadable (data : gmap string value) (w : World) (e : exn) :
  application_history_csv w = Some (inl e) ->
  log_to_history data w = Returns tt (logged ERROR (LoggingError e) w).
Proof.
  intros Hh. rewrite log_to_history_try by congruence.
  unfold check_and_append, read_csv. rewrite !run_bind. unfold get at 1.
  rewrite Hh. reflexivity.
Qed.

Lemma log_to_history_table (data : gmap string value) (w : World) (df : DataFrame)
    (company position : string) :
  application_history_csv w = Some (inr df) ->
  dict_get data "company" (VStr "Unknown") = VStr company ->
  dict_get data "job_title" (VStr "Unknown") = VStr position ->
  log_to_history data w = Returns tt (after_logging w df company position).
Proof.
  intros Hh Hc Hp. rewrite log_to_history_try by congruence.
  rewrite Hc, Hp, (check_and_append_run w df) by exact Hh.
  unfold after_logging.
  destruct (negb (columns_present df)); [reflexivity|].
  destruct (existsb _ _); [reflexivity|].
  destruct (negb _); [reflexivity|].
  destruct (history_writable w); reflexivity.
Qed.

(** *** The invariant *)

Lemma same_entry_key (df : DataFrame) (date company position : string) (r : list value) :
  same_entry df date company position r = true <->
  row_key df r = (Some (VStr date), Some (VStr company), Some (VStr position)).
Proof.
  unfold same_entry, row_key, cell_eq, eq_str. split.
  - intros H. apply andb_prop in H as [H Hp]. apply andb_prop in H as [Hd Hc].
    destruct (cell df "date" r) as [[| | |d| |]|]; try discriminate.
    destruct (cell df "company" r) as [[| | |c| |]|]; try discriminate.
    destruct (cell df "position" r) as [[| | |p| |]|]; try discriminate.
    apply String.eqb_eq in Hd, Hc, Hp. subst. reflexivity.
  - intros H. injection H as -> -> ->. rewrite !String.eqb_refl. reflexivity.
Qed.

Lemma existsb_same_entry (df : DataFrame) (date company position : string) :
  existsb (same_entry df date company position) (rows df) = true <->
  (Some (VStr date), Some (VStr company), Some (VStr position)) ∈ row_key df <$> rows df.
Proof.
  rewrite existsb_exists, list_elem_of_fmap. split.
  - intros (r & Hr & Hs). exists r. split; [symmetry; apply same_entry_key, Hs|].
    apply list_elem_of_In, Hr.
  - intros (r & Hk & Hr). exists r. split; [apply list_elem_of_In, Hr|].
    apply same_entry_key. symmetry. exact Hk.
Qed.

Lemma row_key_new_row (df : DataFrame) (date company position : string) (week : Z) :
  columns df = history_columns ->
  row_key df [VStr date; VInt week; VStr company; VStr position]
  = (Some (VStr date), Some (VStr company), Some (VStr position)).
Proof. intros H. unfold row_key, cell. rewrite H. reflexivity. Qed.

Lemma unique_rows_with_row (df : DataFrame) (date company position : string) (week : Z) :
  columns df = history_columns ->
  unique_rows df ->
  existsb (same_entry df date company position) (rows df) = false ->
  unique_rows (with_row df [VStr date; VInt week; VStr company; VStr position]).
Proof.
  intros Hcols Hu Hex. unfold unique_rows, with_row. simpl.
  change (row_key {| columns := columns df; rows := _ |}) with (row_key df).
  rewrite fmap_app. apply NoDup_app. split; [exact Hu|]. split.
  - intros k Hk Hin. apply list_elem_of_singleton in Hin. subst k.
    rewrite (row_key_new_row df) in Hk by exact Hcols.
    apply existsb_same_entry in Hk. congruence.
  - apply NoDup_singleton.
Qed.

Lemma columns_present_history (df : DataFrame) :
  columns df = history_columns -> columns_present df = true.
Proof. intros H. unfold columns_present, has_column. rewrite H. reflexivity. Qed.

Lemma after_logging_schema (w : World) (df : DataFrame) (company position : string) :
  columns df = history_columns ->
  after_logging w df company position =
    if existsb (same_entry df (strftime_Ymd (now w)) company position) (rows df)
    then logged INFO (EntryExists (VStr company)) w
    else if history_writable w
    then logged INFO EntryAdded
           (set_history (Some (inr (pd_to_csv w (with_row df
              [VStr (strftime_Ymd (now w)); VInt (isoweek (now w));
               VStr company; VStr position])))) w)
    else logged ERROR (LoggingError OSError) w.
Proof.
  intros H. unfold after_logging. rewrite (columns_present_history df H), H.
  reflexivity.
Qed.

(** C6: history logging always returns.  Without a history file it logs a
    warning and returns, and there is still no such file.  With one, an
    exception raised by reading the table, by the existence check, by the
    append or by the write is caught and becomes one error line: so for a
    file that cannot be read, for a table without one of the three columns
    and for a refused write. *)
Theorem history_logging_never_aborts (w : World) (data : gmap string value)
    (company position : string) :
  dict_get data "company" (VStr "Unknown") = VStr company ->
  dict_get data "job_title" (VStr "Unknown") = VStr position ->
  let date := strftime_Ymd (now w) in
  exists w',
    log_to_history data w = Returns tt w'
    /\ (application_history_csv w = None ->
        w' = logged WARNING HistoryNotFound w /\ application_history_csv w' = None)
    /\ (application_history_csv w <> None ->
        forall e w_e,
          check_and_append date (isoweek (now w)) (VStr company) (VStr position) w
            = Raises e w_e ->
          w' = logged ERROR (LoggingError e) w_e)
    /\ (forall e, application_history_csv w = Some (inl e) ->
        w' = logged ERROR (LoggingError e) w)
    /\ (forall df, application_history_csv w = Some (inr df) ->
        columns_present df = false ->
        w' = logged ERROR (LoggingError KeyError) w)
    /\ (forall df, application_history_csv w = Some (inr df) ->
        columns df = history_columns ->
        existsb (same_entry df date company position) (rows df) = false ->
        history_writable w = false ->
        w' = logged ERROR (LoggingError OSError) w).
Proof.
  intros Hc Hp date.
  destruct (application_history_csv w) as [[e|df]|] eqn:Hh.
  - exists (logged ERROR (LoggingError e) w).
    split; [apply log_to_history_unreadable, Hh|].
    split; [discriminate|]. split.
    + intros _ e' w_e Hbody.
      pose proof (log_to_history_try data w ltac:(congruence)) as Htry.
      rewrite Hc, Hp in Htry. fold date in Htry. rewrite Hbody in Htry.
      rewrite (log_to_history_unreadable data w e Hh) in Htry.
      exact (Returns_world _ _ _ _ Htry).
    + split; [intros e' [= ->]; reflexivity|].
      split; intros df; discriminate.
  - exists (after_logging w df company position).
    pose proof (log_to_history_table data w df company position Hh Hc Hp) as Hrun.
    split; [exact Hrun|]. split; [discriminate|]. split.
    + intros _ e w_e Hbody.
      pose proof (log_to_history_try data w ltac:(congruence)) as Htry.
      rewrite Hc, Hp in Htry. fold date in Htry. rewrite Hbody, Hrun in Htry.
      exact (Returns_world _ _ _ _ Htry).
    + split; [discriminate|]. split.
      * intros df' [= <-] Hcp. unfold after_logging. rewrite Hcp. reflexivity.
      * intros df' [= <-] Hcols Hex Hw.
        rewrite (after_logging_schema w df company position Hcols).
        fold date. rewrite Hex, Hw. reflexivity.
  - exists (logged WARNING HistoryNotFound w).
    split; [apply log_to_history_absent, Hh|].
    split; [intros _; split; [reflexivity|exact Hh]|].
    split; [congruence|].
    split; [discriminate|]. split; intros df; discriminate.
Qed.


(** C1: the check compares with the frame that pandas reads, and pandas
    reads a company name made of digits as a number.  On the sample
    installation with a history file of one header line, the application
    to the company "42" is logged, and logged again when the same data is
    logged a second time that day: the file then has two lines with the
    same date, company and position, and the table that is read from it
    breaks the invariant. *)
Theorem history_logs_numeric_company_twice :
  exists w1 w2 df2,
    log_to_history Cases.application_42 Cases.world_empty_history = Returns tt w1
    /\ log_to_history Cases.application_42 w1 = Returns tt w2
    /\ history_file w1
       = Some (inr {| header := history_columns;
                      records := [["2024-03-01"; "9"; "42"; "Developer"]] |})
    /\ history_file w2
       = Some (inr {| header := history_columns;
                      records := [["2024-03-01"; "9"; "42"; "Developer"];
                                  ["2024-03-01"; "9"; "42"; "Developer"]] |})
    /\ console w2 = [(INFO, EntryAdded); (INFO, EntryAdded)]
    /\ application_history_csv w2 = Some (inr df2)
    /\ ~ unique_rows df2.
Proof.
  set (w0 := Cases.world_empty_history).
  set (w1 := final_world (log_to_history Cases.application_42 w0) w0).
  set (w2 := final_world (log_to_history Cases.application_42 w1) w1).
  exists w1, w2,
    {| columns := history_columns;
       rows := [[VStr "2024-03-01"; VInt 9; VInt 42; VStr "Developer"];
                [VStr "2024-03-01"; VInt 9; VInt 42; VStr "Developer"]] |}.
  split; [apply returned_final; vm_compute; reflexivity|].
  split; [apply returned_final; vm_compute; reflexivity|].
  split; [vm_compute; reflexivity|].
  split; [vm_compute; reflexivity|].
  split; [vm_compute; reflexivity|].
  split; [vm_compute; reflexivity|].
  unfold unique_rows. intros H. vm_compute in H.
  apply NoDup_cons in H as [H _]. apply H. left.
Qed.


(** ** The stages of [main] *)

Lemma truthy_empty : truthy (VMap ∅) = false.
Proof. reflexivity. Qed.

(** C5: when the configuration file is missing, or holds a value that is
    falsy (an empty mapping, nothing), [main] returns at once: its only
    effect is the error lines on the console, the last of them "Error
    loading Data"; the templates, the archive and the history table are as
    before. *)
Theorem main_aborts_without_config (template : Type)
    (get_template : gmap string content -> string -> option template)
    (render : template -> gmap string value -> option string)
    (xelatex : gmap string content -> string -> process) (w : World) :
  (config_yaml w = None
   \/ exists v, config_yaml w = Some (inr v) /\ truthy v = false) ->
  exists w',
    main template get_template render xelatex w = Returns tt w'
    /\ w' = set_console (console w ++ abort_lines w) w
    /\ Forall (fun line => fst line = ERROR) (abort_lines w)
    /\ last (console w') = Some (ERROR, ErrorLoadingData)
    /\ templates w' = templates w
    /\ applications w' = applications w
    /\ application_history_csv w' = application_history_csv w.
Proof.
  intros H. exists (set_console (console w ++ abort_lines w) w).
  unfold main, abort_lines. rewrite run_bind. unfold load_config.
  rewrite run_bind. unfold get at 1.
  destruct H as [Hc|(v & Hc & Hv)]; rewrite Hc.
  - split; [|split; [reflexivity|split; [repeat constructor|repeat split]]].
    + rewrite run_bind. unfold logger at 1, modify at 1.
      unfold mret at 1, M_ret at 1. rewrite truthy_empty. cbn [negb].
      unfold logger, modify. cbn. rewrite <- app_assoc. reflexivity.
    + cbn. rewrite last_app. reflexivity.
  - split; [|split; [reflexivity|split; [repeat constructor|repeat split]]].
    + unfold mret at 1, M_ret at 1. rewrite Hv. reflexivity.
    + cbn. rewrite last_app. reflexivity.
Qed.

Lemma resolve_language_run (data sub : gmap string value) (lang : string) (w : World) :
  data !! "language" = Some (VStr lang) ->
  data !! lang = Some (VMap sub) ->
  lang = "en" \/ lang = "de" ->
  resolve_language data w =
    Returns (<["doc_lang" := VStr (if String.eqb lang "en" then "english" else "ngerman")]>
               (<["lang" := VStr lang]> (sub ∪ data))) w.
Proof.
  intros Hl Hs Hlang. unfold resolve_language, dict_get. rewrite Hl.
  rewrite run_bind. unfold get_lang_data, dict_get. rewrite Hs.
  unfold mret at 1, M_ret at 1. rewrite run_bind.
  unfold dict_update, mret at 1, M_ret at 1.
  destruct Hlang as [-> | ->]; reflexivity.
Qed.

(** C7: for a configuration with [language: en] (or [de]) whose
    sub-mapping of that name holds [company: "Acme"], the resolver returns a
    mapping with [company] equal to "Acme" and [doc_lang] equal to
    "english" (for [de]: "ngerman"). *)
Theorem localization_merge (data sub : gmap string value) (lang : string) (w : World) :
  data !! "language" = Some (VStr lang) ->
  data !! lang = Some (VMap sub) ->
  sub !! "company" = Some (VStr "Acme") ->
  lang = "en" \/ lang = "de" ->
  exists data',
    resolve_language data w = Returns data' w
    /\ data' !! "company" = Some (VStr "Acme")
    /\ data' !! "doc_lang"
       = Some (VStr (if String.eqb lang "en" then "english" else "ngerman"))
    /\ data' !! "lang" = Some (VStr lang).
Proof.
  intros Hl Hs Hc Hlang. eexists. split; [apply (resolve_language_run _ sub lang); assumption|].
  split; [|split].
  - rewrite !lookup_insert_ne by discriminate.
    apply lookup_union_Some_l, Hc.
  - apply lookup_insert_eq.
  - rewrite lookup_insert_ne by discriminate. apply lookup_insert_eq.
Qed.

Lemma validate_loop_run (names : list string) (valid : list value) (w : World) :
  validate_loop (VStr <$> names) valid w =
    Returns (valid ++ (VStr <$> List.filter (attachment_exists w) names))%list
            (set_console (console w ++ missing_warnings w names) w).
Proof.
  revert valid w. induction names as [|name names IH]; intros valid w.
  - unfold missing_warnings. simpl. rewrite !app_nil_r. destruct w; reflexivity.
  - cbn [fmap list_fmap validate_loop]. rewrite run_bind. unfold get at 1.
    unfold missing_warnings. cbn [List.filter].
    destruct (attachment_exists w name) eqn:Hex; cbn [negb].
    + change (list_fmap string value VStr names) with (VStr <$> names).
      rewrite IH. rewrite <- app_assoc. reflexivity.
    + rewrite run_bind. unfold logger at 1, modify at 1.
      change (list_fmap string value VStr names) with (VStr <$> names).
      rewrite IH. cbn. unfold missing_warnings. cbn. rewrite <- app_assoc. reflexivity.
Qed.

(** C8: for every requested list of names the validator sets
    [attachments] to the requested names that exist under the attachment
    directory, in request order, changes no other key and warns for each
    missing name. *)
Theorem attachments_filtered (data : gmap string value) (names : list string) (w : World) :
  dict_get data "attachments" (VList []) = VList (VStr <$> names) ->
  exists data' w',
    validate_attachments data w = Returns data' w'
    /\ data' !! "attachments"
       = Some (VList (VStr <$> List.filter (attachment_exists w) names))
    /\ (forall key, key <> "attachments" -> data' !! key = data !! key)
    /\ w' = set_console (console w ++ missing_warnings w names) w.
Proof.
  intros Hreq. eexists _, _. split.
  - unfold validate_attachments. rewrite Hreq. rewrite run_bind.
    unfold iterate, mret at 1, M_ret at 1. rewrite run_bind, validate_loop_run.
    reflexivity.
  - split; [apply lookup_insert_eq|]. split; [|reflexivity].
    intros key Hkey. apply lookup_insert_ne. congruence.
Qed.

(** ** The letter text that is archived *)

(** C2: the archiver copies [config.yaml] and leaves it in place, but the
    text it copies is [application_letter_text.txt], not [CONTENT_FILE]
    ([application_text.txt]) that was read into [content].  On the sample
    installation the rendered letter holds the text of [CONTENT_FILE] and
    the archive holds the other text; without
    [application_letter_text.txt] the run ends in [FileNotFoundError]
    before the history is logged. *)
Theorem archive_copies_another_letter_file :
  (exists w' folder,
      sample_main Sample.world = Returns tt w'
      /\ templates w' !! "application_letter.tex" = Some (Text "Dear hiring team")
      /\ applications w' !! "2024-03-01_acme_engineer" = Some folder
      /\ folder !! "config.yaml" = Some (Yaml (inr (VMap Sample.config)))
      /\ config_yaml w' = config_yaml Sample.world
      /\ folder !! "application_letter_text.txt" = Some (Text "An older draft")
      /\ folder !! "application_letter_text.txt" <> Some (Text "Dear hiring team"))
  /\ (exists w',
      sample_main Sample.world_one_letter = Raises FileNotFoundError w'
      /\ application_text_txt w' = Some "Dear hiring team"
      /\ application_history_csv w' = Some (inr Sample.history)).
Proof.
  split.
  - set (w' := final_world (sample_main Sample.world) Sample.world).
    exists w', (default ∅ (applications w' !! "2024-03-01_acme_engineer")).
    split; [apply returned_final; vm_compute; reflexivity|].
    split; [vm_compute; reflexivity|].
    split; [vm_compute; reflexivity|].
    split; [vm_compute; reflexivity|].
    split; [vm_compute; reflexivity|].
    split; [vm_compute; reflexivity|].
    vm_compute. discriminate.
  - set (w' := final_world (sample_main Sample.world_one_letter)
                 Sample.world_one_letter).
    exists w'.
    split; [apply raised_final; vm_compute; reflexivity|].
    split; vm_compute; reflexivity.
Qed.

(** ** The properties on the sample installation *)

Lemma archive_folder_example_witness :
  (year (now Sample.world) = 2024%N
   /\ Sample.application !! "company" = Some (VStr "Acme Corp")
   /\ Sample.application !! "job_title" = Some (VStr "Senior Eng/Lead"))
  /\ ensures (archive_results Sample.application) Sample.world
       (archived_into Sample.world "2024-03-01_acme_corp_senior_eng-lead").
Proof.
  split; [repeat split|].
  apply (archive_folder_example Sample.world Sample.application); reflexivity.
Defined.

Lemma main_aborts_without_config_witness :
  config_yaml Sample.world_without_config = None
  /\ exists w',
       sample_main Sample.world_without_config = Returns tt w'
       /\ console w' = [(ERROR, ConfigNotFound); (ERROR, ErrorLoadingData)]
       /\ templates w' = Sample.compiled
       /\ applications w' = ∅.
Proof.
  split; [reflexivity|].
  destruct (main_aborts_without_config string Sample.get_template Sample.render
              Sample.xelatex Sample.world_without_config)
    as (w' & Hrun & -> & _); [left; reflexivity|].
  exists (set_console
            (console Sample.world_without_config
             ++ abort_lines Sample.world_without_config)
            Sample.world_without_config).
  split; [exact Hrun|]. repeat split.
Defined.

Lemma history_logging_never_aborts_witness :
  dict_get Sample.application "company" (VStr "Unknown") = VStr "Acme Corp"
  /\ exists w',
       log_to_history Sample.application
         (set_history None Sample.world) = Returns tt w'
       /\ application_history_csv w' = None.
Proof.
  split; [reflexivity|].
  destruct (history_logging_never_aborts (set_history None Sample.world)
              Sample.application "Acme Corp" "Senior Eng/Lead")
    as (w' & Hrun & Habsent & _); try reflexivity.
  exists w'. split; [exact Hrun|]. apply Habsent. reflexivity.
Defined.

Lemma localization_merge_witness :
  (Sample.config !! "language" = Some (VStr "en")
   /\ Sample.config !! "en" = Some (VMap {[ "company" := VStr "Acme" ]}))
  /\ exists data',
       resolve_language Sample.config Sample.world = Returns data' Sample.world
       /\ data' !! "company" = Some (VStr "Acme")
       /\ data' !! "doc_lang" = Some (VStr "english").
Proof.
  split; [split; reflexivity|].
  destruct (localization_merge Sample.config {[ "company" := VStr "Acme" ]} "en"
              Sample.world)
    as (data' & Hrun & Hc & Hd & _); try reflexivity; [left; reflexivity|].
  exists data'. repeat split; assumption.
Defined.

Lemma attachments_filtered_witness :
  (dict_get Sample.config "attachments" (VList [])
     = VList [VStr "a.pdf"; VStr "b.pdf"]
   /\ attachment_exists Sample.world "a.pdf" = true
   /\ attachment_exists Sample.world "b.pdf" = false)
  /\ exists data' w',
       validate_attachments Sample.config Sample.world = Returns data' w'
       /\ data' !! "attachments" = Some (VList [VStr "a.pdf"])
       /\ console w' = [(WARNING, AttachmentMissing "b.pdf")].
Proof.
  split; [repeat split|].
  destruct (attachments_filtered Sample.config ["a.pdf"; "b.pdf"] Sample.world)
    as (data' & w' & Hrun & Ha & _ & ->); [reflexivity|].
  eexists data', _. split; [exact Hrun|]. split; [exact Ha|reflexivity].
Defined.


(** * Further properties *)

(** ** The name sanitiser and the archive names *)

Lemma re_sub_app (s1 s2 : string) :
  Str.re_sub_not_in_class (s1 +:+ s2)
  = Str.re_sub_not_in_class s1 +:+ Str.re_sub_not_in_class s2.
Proof.
  induction s1 as [|c s1 IH]; simpl; [reflexivity|].
  destruct (Str.in_class c); simpl; rewrite IH; reflexivity.
Qed.

Lemma replace_app (old new : ascii) (s1 s2 : string) :
  Str.replace old new (s1 +:+ s2) = Str.replace old new s1 +:+ Str.replace old new s2.
Proof. induction s1 as [|c s1 IH]; simpl; [reflexivity|]. rewrite IH. reflexivity. Qed.

(** X1: the sanitiser works character by character: the name of a
    concatenation is the concatenation of the names. *)
Theorem sanitizer_concat (s1 s2 : string) :
  create_shell_friendly_name (s1 +:+ s2)
  = create_shell_friendly_name s1 +:+ create_shell_friendly_name s2.
Proof.
  unfold create_shell_friendly_name. rewrite !replace_app. apply re_sub_app.
Qed.

Lemma replace_length (old new : ascii) (s : string) :
  String.length (Str.replace old new s) = String.length s.
Proof. induction s as [|c s IH]; simpl; [reflexivity|]. rewrite IH. reflexivity. Qed.

Lemma re_sub_length (s : string) :
  String.length (Str.re_sub_not_in_class s) <= String.length s.
Proof.
  induction s as [|c s IH]; simpl; [lia|].
  destruct (Str.in_class c); simpl; lia.
Qed.

(** X2: the sanitiser never makes a name longer, and keeps the length
    exactly when it removes nothing, that is when every character is a
    space, a slash or in [[A-Za-z0-9_-]]. *)
Theorem sanitizer_length (s : string) :
  String.length (create_shell_friendly_name s) <= String.length s
  /\ (String.length (create_shell_friendly_name s) = String.length s <->
      Str.all (fun c => Ascii.eqb c " " || Ascii.eqb c "/" || Str.in_class c) s = true).
Proof.
  assert (Hle : forall t, String.length (create_shell_friendly_name t) <= String.length t).
  { intros t. unfold create_shell_friendly_name.
    etransitivity; [apply re_sub_length|]. rewrite !replace_length. lia. }
  split; [apply Hle|].
  induction s as [|c s IH]; [simpl; tauto|].
  rewrite create_shell_friendly_name_cons. pose proof (Hle s) as Hs.
  cbn [Str.all String.length].
  destruct (Ascii.eqb c " "); simpl; [rewrite <- IH; lia|].
  destruct (Ascii.eqb c "/"); simpl; [rewrite <- IH; lia|].
  destruct (Str.in_class c); simpl; [rewrite <- IH; lia|].
  split; [lia|discriminate].
Qed.

Lemma all_app (p : ascii -> bool) (s1 s2 : string) :
  Str.all p (s1 +:+ s2) = Str.all p s1 && Str.all p s2.
Proof.
  induction s1 as [|c s1 IH]; simpl; [reflexivity|].
  rewrite IH, andb_assoc. reflexivity.
Qed.

Lemma lower_char_lower_class (c : ascii) :
  Str.in_class c = true -> lower_class (Str.lower_char c) = true.
Proof.
  destruct c as [[] [] [] [] [] [] [] []]; vm_compute; intros H;
    try reflexivity; discriminate.
Qed.

Lemma lower_lower_class (s : string) :
  Str.all Str.in_class s = true -> Str.all lower_class (Str.lower s) = true.
Proof.
  induction s as [|c s IH]; simpl; [reflexivity|].
  intros H. apply andb_prop in H as [Hc Hs].
  rewrite (lower_char_lower_class c Hc), (IH Hs). reflexivity.
Qed.

Lemma digit_lower_class (n : N) : lower_class (Str.digit n) = true.
Proof.
  unfold Str.digit.
  assert (H10 : (10 <> 0)%N) by discriminate.
  pose proof (N.mod_upper_bound n 10 H10) as H.
  remember (N.modulo n 10) as d eqn:Hd. clear Hd.
  assert (Hd : (d = 0 \/ d = 1 \/ d = 2 \/ d = 3 \/ d = 4 \/ d = 5
                \/ d = 6 \/ d = 7 \/ d = 8 \/ d = 9)%N) by lia.
  repeat (destruct Hd as [Hd|Hd]; [rewrite Hd; reflexivity|]).
  rewrite Hd. reflexivity.
Qed.

Lemma strftime_lower_class (t : datetime) :
  Str.all lower_class (strftime_Ymd t) = true.
Proof.
  unfold strftime_Ymd, Str.pad4, Str.pad2. simpl.
  rewrite !digit_lower_class. reflexivity.
Qed.

Lemma sanitized_lower_class (s : string) :
  Str.all lower_class (Str.lower (create_shell_friendly_name s)) = true.
Proof. apply lower_lower_class, create_shell_friendly_name_in_class. Qed.

(** X3: whatever the company and the job title are, the name of the archive
    folder holds characters of [[a-z0-9_-]] only (no path separator, no
    capital letter), and the archiver works in that one folder. *)
Theorem archive_folder_name_safe (data : gmap string value) (w : World) (c j : string) :
  dict_get data "company" (VStr "unknown_company") = VStr c ->
  dict_get data "job_title" (VStr "job") = VStr j ->
  exists f,
    f = folder_name_of (strftime_Ymd (now w))
          (Str.lower (create_shell_friendly_name c))
          (Str.lower (create_shell_friendly_name j))
    /\ Str.all lower_class f = true
    /\ ensures (archive_results data) w (archived_into w f).
Proof.
  intros Hc Hj. eexists. split; [reflexivity|]. split.
  - unfold folder_name_of. rewrite !all_app.
    rewrite strftime_lower_class, !sanitized_lower_class. reflexivity.
  - apply archive_results_folder; assumption.
Qed.

(** ** The archiver: defaults, failures and the archived files *)

(** X4: without [company] and [job_title] in the data mapping the archiver
    uses the folder [<date>_unknown_company_job]. *)
Theorem archive_default_names (data : gmap string value) (w : World) :
  data !! "company" = None ->
  data !! "job_title" = None ->
  ensures (archive_results data) w
    (archived_into w (strftime_Ymd (now w) +:+ "_unknown_company_job")).
Proof.
  intros Hc Hj.
  pose proof (archive_results_folder data w "unknown_company" "job") as H.
  unfold dict_get in H. rewrite Hc, Hj in H. specialize (H eq_refl eq_refl).
  replace (strftime_Ymd (now w) +:+ "_unknown_company_job")
    with (folder_name_of (strftime_Ymd (now w))
            (Str.lower (create_shell_friendly_name "unknown_company"))
            (Str.lower (create_shell_friendly_name "job"))); [exact H|].
  reflexivity.
Qed.

(** X5: a company or a job title that is not a string ends the archiver
    with [AttributeError] before it has created or moved anything. *)
Theorem archive_rejects_non_strings (data : gmap string value) (w : World) :
  (forall s, dict_get data "company" (VStr "unknown_company") <> VStr s)
  \/ (forall s, dict_get data "job_title" (VStr "job") <> VStr s) ->
  archive_results data w = Raises AttributeError w.
Proof.
  intros H. unfold archive_results. rewrite run_bind. unfold get at 1.
  destruct (dict_get data "company" (VStr "unknown_company")) as [| | |c| |] eqn:Hc;
    try reflexivity.
  destruct H as [H|H]; [destruct (H c eq_refl)|].
  rewrite run_bind. cbn [str_receiver]. unfold mret at 1, M_ret at 1.
  destruct (dict_get data "job_title" (VStr "job")) as [| | |j| |] eqn:Hj;
    try reflexivity.
  destruct (H j eq_refl).
Qed.

Lemma write_target_run (f name : string) (c : content) (d : gmap string content)
    (w : World) :
  applications w !! f = Some d ->
  write_target f name c w
  = Returns tt (set_applications (<[f := <[name := c]> d]> (applications w)) w).
Proof.
  intros H. unfold write_target. rewrite run_bind. unfold get at 1.
  rewrite H. reflexivity.
Qed.

Lemma shutil_move_run (src f dst : string) (c : content) (d : gmap string content)
    (w : World) :
  templates w !! src = Some c ->
  applications w !! f = Some d ->
  shutil_move src f dst w
  = Returns tt (set_templates (delete src (templates w))
                  (set_applications (<[f := <[dst := c]> d]> (applications w)) w)).
Proof.
  intros Ht Ha. unfold shutil_move. rewrite run_bind. unfold get at 1.
  rewrite Ht, run_bind, (write_target_run f dst c d w Ha). reflexivity.
Qed.

Lemma shutil_move_missing (src f dst : string) (w : World) :
  templates w !! src = None ->
  shutil_move src f dst w = Raises FileNotFoundError w.
Proof.
  intros Ht. unfold shutil_move. rewrite run_bind. unfold get at 1.
  rewrite Ht. reflexivity.
Qed.

(** The world after [mkdir]: the folder is there, nothing else changed. *)
Lemma mkdir_run (f : string) (w : World) :
  exists w1 d0,
    mkdir f w = Returns tt w1
    /\ applications w1 !! f = Some d0
    /\ d0 = default ∅ (applications w !! f)
    /\ (forall g, g ≠ f -> applications w1 !! g = applications w !! g)
    /\ templates w1 = templates w
    /\ config_yaml w1 = config_yaml w
    /\ application_letter_text_txt w1 = application_letter_text_txt w
    /\ console w1 = console w.
Proof.
  unfold mkdir, modify.
  destruct (applications w !! f) as [d|] eqn:Hd.
  - exists w, d. repeat split; assumption.
  - eexists _, ∅. split; [reflexivity|]. cbn.
    split; [apply lookup_insert_eq|]. split; [reflexivity|].
    split; [|repeat split].
    intros g Hg. apply lookup_insert_ne. congruence.
Qed.

Ltac peel H a :=
  destruct a as [|? a]; cbn in H;
  [try discriminate H | first [discriminate H | injection H as _ H]].

Lemma final_name_fresh (company job : string) :
  final_name_of company job <> "cv.pdf"
  /\ final_name_of company job <> "application_letter.pdf"
  /\ final_name_of company job <> "attachments.pdf"
  /\ final_name_of company job <> "config.yaml"
  /\ final_name_of company job <> "application_letter_text.txt".
Proof.
  unfold final_name_of. repeat split; intros H; cbn in H; try discriminate H.
  - repeat (injection H as _ H). repeat peel H company.
  - repeat (injection H as _ H). repeat peel H company. repeat peel H job.
Qed.

Ltac world_fields :=
  cbn [templates applications config_yaml application_letter_text_txt
       application_text_txt console now attachment_exists
       application_history_csv history_writable
       set_templates set_applications set_console set_history].

(** X6: the moves are not undone.  With [cv.pdf] compiled and
    [application_letter.pdf] missing, the archiver ends with
    [FileNotFoundError]; the folder exists, [cv.pdf] is in it and no more
    in [TEMPLATE_DIR]. *)
Theorem archive_no_rollback (data : gmap string value) (w : World) (c j : string)
    (cv : content) :
  dict_get data "company" (VStr "unknown_company") = VStr c ->
  dict_get data "job_title" (VStr "job") = VStr j ->
  templates w !! "cv.pdf" = Some cv ->
  templates w !! "application_letter.pdf" = None ->
  exists w' d,
    archive_results data w = Raises FileNotFoundError w'
    /\ applications w' !! folder_name_of (strftime_Ymd (now w))
                            (Str.lower (create_shell_friendly_name c))
                            (Str.lower (create_shell_friendly_name j)) = Some d
    /\ d !! "cv.pdf" = Some cv
    /\ templates w' !! "cv.pdf" = None
    /\ console w' = console w.
Proof.
  intros Hc Hj Hcv Hal. unfold archive_results. rewrite Hc, Hj.
  rewrite run_bind. unfold get at 1. cbn [str_receiver].
  rewrite run_bind. unfold mret at 1, M_ret at 1.
  rewrite run_bind. unfold mret at 1, M_ret at 1.
  set (f := folder_name_of _ _ _).
  destruct (mkdir_run f w) as (w1 & d0 & Hmk & Hf & _ & _ & Ht & _ & _ & Hcon).
  rewrite run_bind, Hmk. rewrite run_bind. cbn [for_each].
  rewrite run_bind.
  rewrite (shutil_move_run "cv.pdf" f "cv.pdf" cv d0 w1) by (rewrite ?Ht; assumption).
  rewrite run_bind, shutil_move_missing.
  2:{ world_fields. rewrite lookup_delete_ne by discriminate. rewrite Ht. exact Hal. }
  eexists _, _. split; [reflexivity|]. world_fields.
  split; [apply lookup_insert_eq|]. split; [apply lookup_insert_eq|].
  split; [apply lookup_delete_eq|exact Hcon].
Qed.

Lemma shutil_copy_run (c : content) (f name : string) (d : gmap string content)
    (w : World) :
  applications w !! f = Some d ->
  shutil_copy (Some c) f name w
  = Returns tt (set_applications (<[f := <[name := c]> d]> (applications w)) w).
Proof. apply write_target_run. Qed.

(** X7: with the three compiled documents, the configuration file and
    [application_letter_text.txt] in place, the archiver returns.  The
    folder then holds the three documents under their names, a copy of the
    configuration and of the text, and [main.pdf] (if there was one) under
    [application_<company>_<job>.pdf]; the documents are gone from
    [TEMPLATE_DIR], the two copied files are still in place, and the console
    has one more line exactly when [main.pdf] was moved. *)
Theorem archive_results_files (data : gmap string value) (w : World) (c j : string)
    (cv al att : content) (cfg : exn + value) (txt : string) :
  dict_get data "company" (VStr "unknown_company") = VStr c ->
  dict_get data "job_title" (VStr "job") = VStr j ->
  templates w !! "cv.pdf" = Some cv ->
  templates w !! "application_letter.pdf" = Some al ->
  templates w !! "attachments.pdf" = Some att ->
  config_yaml w = Some cfg ->
  application_letter_text_txt w = Some txt ->
  let company := Str.lower (create_shell_friendly_name c) in
  let job := Str.lower (create_shell_friendly_name j) in
  let f := folder_name_of (strftime_Ymd (now w)) company job in
  exists w' d,
    archive_results data w = Returns tt w'
    /\ applications w' !! f = Some d
    /\ (d !! "cv.pdf" = Some cv
        /\ d !! "application_letter.pdf" = Some al
        /\ d !! "attachments.pdf" = Some att
        /\ d !! "config.yaml" = Some (Yaml cfg)
        /\ d !! "application_letter_text.txt" = Some (Text txt))
    /\ match templates w !! "main.pdf" with
       | Some m =>
           d !! final_name_of company job = Some m
           /\ console w' = (console w ++ [(INFO, MainPdfMoved (final_name_of company job))])%list
       | None =>
           d !! final_name_of company job
             = default ∅ (applications w !! f) !! final_name_of company job
           /\ console w' = console w
       end
    /\ (templates w' !! "cv.pdf" = None
        /\ templates w' !! "application_letter.pdf" = None
        /\ templates w' !! "attachments.pdf" = None
        /\ templates w' !! "main.pdf" = None)
    /\ config_yaml w' = Some cfg
    /\ application_letter_text_txt w' = Some txt.
Proof.
  intros Hc Hj Hcv Hal Hatt Hcfg Htxt company job f.
  destruct (final_name_fresh company job) as (N1 & N2 & N3 & N4 & N5).
  unfold archive_results. rewrite Hc, Hj.
  rewrite run_bind. unfold get at 1. cbn [str_receiver].
  rewrite run_bind. unfold mret at 1, M_ret at 1.
  rewrite run_bind. unfold mret at 1, M_ret at 1.
  fold company job. fold f. fold (final_name_of company job).
  destruct (mkdir_run f w) as (w1 & d0 & Hmk & Hf & Hd0 & _ & Ht & Hcfg1 & Htxt1 & Hcon).
  rewrite <- Hd0. rewrite <- Ht in Hcv, Hal, Hatt. rewrite <- Ht.
  rewrite <- Hcfg1 in Hcfg. rewrite <- Htxt1 in Htxt. rewrite <- Hcon.
  clear Hd0 Ht Hcfg1 Htxt1 Hcon.
  rewrite run_bind, Hmk. rewrite run_bind. cbn [for_each].
  rewrite run_bind.
  rewrite (shutil_move_run "cv.pdf" f "cv.pdf" cv d0 w1) by assumption.
  rewrite run_bind.
  erewrite (shutil_move_run "application_letter.pdf" f "application_letter.pdf" al).
  2:{ world_fields. rewrite lookup_delete_ne by discriminate. exact Hal. }
  2:{ world_fields. apply lookup_insert_eq. }
  rewrite run_bind.
  erewrite (shutil_move_run "attachments.pdf" f "attachments.pdf" att).
  2:{ world_fields. rewrite !lookup_delete_ne by discriminate. exact Hatt. }
  2:{ world_fields. apply lookup_insert_eq. }
  unfold mret at 1, M_ret at 1.
  rewrite run_bind. unfold get at 1. world_fields. rewrite Hcfg. cbn [fmap option_fmap option_map].
  rewrite run_bind. erewrite shutil_copy_run.
  2:{ world_fields. apply lookup_insert_eq. }
  rewrite run_bind. unfold get at 1. world_fields. rewrite Htxt. cbn [fmap option_fmap option_map].
  rewrite run_bind. erewrite shutil_copy_run.
  2:{ world_fields. apply lookup_insert_eq. }
  rewrite run_bind. unfold get at 1. world_fields.
  rewrite !lookup_delete_ne by discriminate.
  destruct (templates w1 !! "main.pdf") as [m|] eqn:Hmain.
  - rewrite run_bind. erewrite (shutil_move_run "main.pdf" f _ m).
    2:{ world_fields. rewrite !lookup_delete_ne by discriminate. exact Hmain. }
    2:{ world_fields. apply lookup_insert_eq. }
    eexists _, _. split; [reflexivity|]. world_fields.
    split; [apply lookup_insert_eq|].
    split; [|split; [|split; [|split; [exact Hcfg|exact Htxt]]]].
    + rewrite !(lookup_insert_ne _ (final_name_of company job)) by assumption.
      repeat split;
        rewrite ?lookup_insert_eq; try reflexivity;
        repeat (rewrite lookup_insert_ne by discriminate; rewrite ?lookup_insert_eq);
        reflexivity.
    + split; [apply lookup_insert_eq|reflexivity].
    + repeat split;
        repeat first [apply lookup_delete_eq | rewrite lookup_delete_ne by discriminate].
  - eexists _, _. split; [reflexivity|]. world_fields.
    split; [apply lookup_insert_eq|].
    split; [|split; [|split; [|split; [exact Hcfg|exact Htxt]]]].
    + repeat split;
        rewrite ?lookup_insert_eq; try reflexivity;
        repeat (rewrite lookup_insert_ne by discriminate; rewrite ?lookup_insert_eq);
        reflexivity.
    + split; [|reflexivity].
      rewrite !lookup_insert_ne by (intros E; symmetry in E; contradiction).
      reflexivity.
    + repeat split;
        repeat first [apply lookup_delete_eq | rewrite lookup_delete_ne by discriminate];
        exact Hmain.
Qed.

(** ** The history logger: further cases *)

(** X8: a table that has the three columns of the check but not four
    columns in all cannot take the new row: pandas raises [ValueError], the
    logger reports it and the table stays as it was. *)
Theorem history_column_count_mismatch (w : World) (data : gmap string value)
    (df : DataFrame) (company position : string) :
  application_history_csv w = Some (inr df) ->
  dict_get data "company" (VStr "Unknown") = VStr company ->
  dict_get data "job_title" (VStr "Unknown") = VStr position ->
  columns_present df = true ->
  length (columns df) <> 4 ->
  existsb (same_entry df (strftime_Ymd (now w)) company position) (rows df) = false ->
  log_to_history data w = Returns tt (logged ERROR (LoggingError ValueError) w).
Proof.
  intros Hh Hc Hp Hcp Hlen Hex.
  rewrite (log_to_history_table data w df company position Hh Hc Hp).
  unfold after_logging. rewrite Hcp, Hex. cbn [negb].
  apply Nat.eqb_neq in Hlen. rewrite Hlen. reflexivity.
Qed.

(** X9: the existence check does not look at the week.  A row with the
    date, the company and the position of the entry, whatever its week
    and whatever follows its fourth cell, makes the logger skip the entry
    and leave the table alone. *)
Theorem history_check_ignores_week (w : World) (data : gmap string value)
    (df : DataFrame) (company position : string) (week : value) (more : list value) :
  application_history_csv w = Some (inr df) ->
  columns df = history_columns ->
  dict_get data "company" (VStr "Unknown") = VStr company ->
  dict_get data "job_title" (VStr "Unknown") = VStr position ->
  In (VStr (strftime_Ymd (now w)) :: week :: VStr company :: VStr position :: more)
     (rows df) ->
  log_to_history data w = Returns tt (logged INFO (EntryExists (VStr company)) w).
Proof.
  intros Hh Hcols Hc Hp Hin.
  rewrite (log_to_history_table data w df company position Hh Hc Hp).
  rewrite (after_logging_schema w df company position Hcols).
  replace (existsb _ _) with true; [reflexivity|].
  symmetry. apply existsb_exists. eexists. split; [exact Hin|].
  apply same_entry_key. unfold row_key, cell. rewrite Hcols. reflexivity.
Qed.

(** X10: without [company] and [job_title] in the data mapping the entry is
    logged under "Unknown" twice: on a writable table with no such row of
    that day, the file is written from the frame that was read with the new
    last row (date, week, "Unknown", "Unknown"). *)
Theorem history_default_names (w : World) (data : gmap string value) (df : DataFrame) :
  application_history_csv w = Some (inr df) ->
  columns df = history_columns ->
  data !! "company" = None ->
  data !! "job_title" = None ->
  existsb (same_entry df (strftime_Ymd (now w)) "Unknown" "Unknown") (rows df) = false ->
  history_writable w = true ->
  exists w',
    log_to_history data w = Returns tt w'
    /\ history_file w'
       = Some (inr (pd_to_csv w
                      (with_row df [VStr (strftime_Ymd (now w)); VInt (isoweek (now w));
                                    VStr "Unknown"; VStr "Unknown"]))).
Proof.
  intros Hh Hcols Hc Hp Hex Hw. eexists. split.
  - rewrite (log_to_history_table data w df "Unknown" "Unknown" Hh);
      [|unfold dict_get; rewrite ?Hc, ?Hp; reflexivity..].
    rewrite (after_logging_schema w df _ _ Hcols), Hex, Hw. reflexivity.
  - reflexivity.
Qed.

(** ** The localization resolver: further cases *)

Lemma resolve_language_mapping (data sub : gmap string value) (lang : string) (w : World) :
  data !! "language" = Some (VStr lang) ->
  data !! lang = Some (VMap sub) ->
  resolve_language data w =
    if String.eqb lang "en"
    then Returns (<["doc_lang" := VStr "english"]> (<["lang" := VStr lang]> (sub ∪ data))) w
    else if String.eqb lang "de"
    then Returns (<["doc_lang" := VStr "ngerman"]> (<["lang" := VStr lang]> (sub ∪ data))) w
    else Returns (<["lang" := VStr lang]> (sub ∪ data))
           (logged CRITICAL (NoValidLanguage (VStr lang)) w).
Proof.
  intros Hl Hs. unfold resolve_language, dict_get. rewrite Hl.
  rewrite run_bind. unfold get_lang_data, dict_get. rewrite Hs.
  unfold mret at 1, M_ret at 1. rewrite run_bind.
  unfold dict_update, mret at 1, M_ret at 1. cbn [eq_str].
  destruct (String.eqb lang "en"); [reflexivity|].
  destruct (String.eqb lang "de"); reflexivity.
Qed.

(** X11: the merge of the language section.  For every language name that
    has a sub-mapping, known or not, the resolver returns; a key of the
    sub-mapping replaces the top-level key of that name, every other key
    keeps its value, and [lang] is the language name even when the
    sub-mapping has a key [lang]. *)
Theorem resolve_language_merge (data sub : gmap string value) (lang : string) (w : World) :
  data !! "language" = Some (VStr lang) ->
  data !! lang = Some (VMap sub) ->
  exists data' w',
    resolve_language data w = Returns data' w'
    /\ data' !! "lang" = Some (VStr lang)
    /\ forall key, key <> "lang" -> key <> "doc_lang" ->
         data' !! key = match sub !! key with
                        | Some v => Some v
                        | None => data !! key
                        end.
Proof.
  intros Hl Hs.
  pose proof (resolve_language_mapping data sub lang w Hl Hs) as Hrun.
  assert (Hmerge : forall key, (sub ∪ data) !! key
                               = match sub !! key with
                                 | Some v => Some v
                                 | None => data !! key
                                 end).
  { intros key. destruct (sub !! key) as [v|] eqn:Hk.
    - apply lookup_union_Some_l, Hk.
    - apply lookup_union_r, Hk. }
  destruct (String.eqb lang "en"); [|destruct (String.eqb lang "de")];
    eexists _, _; (split; [exact Hrun|]); split.
  - rewrite lookup_insert_ne by discriminate. apply lookup_insert_eq.
  - intros key H1 H2. rewrite !lookup_insert_ne by congruence. apply Hmerge.
  - rewrite lookup_insert_ne by discriminate. apply lookup_insert_eq.
  - intros key H1 H2. rewrite !lookup_insert_ne by congruence. apply Hmerge.
  - apply lookup_insert_eq.
  - intros key H1 H2. rewrite !lookup_insert_ne by congruence. apply Hmerge.
Qed.

(** X12: a language other than [en] and [de] is reported and not fatal.
    With no section of that name the resolver returns the data with [lang]
    set and nothing else changed ([doc_lang] is not set) and one line of
    level CRITICAL on the console. *)
Theorem resolve_language_unknown (data : gmap string value) (lang : string) (w : World) :
  data !! "language" = Some (VStr lang) ->
  lang <> "en" -> lang <> "de" ->
  data !! lang = None ->
  resolve_language data w
  = Returns (<["lang" := VStr lang]> data)
      (logged CRITICAL (NoValidLanguage (VStr lang)) w).
Proof.
  intros Hl Hen Hde Hs. unfold resolve_language, dict_get. rewrite Hl.
  rewrite run_bind. unfold get_lang_data, dict_get. rewrite Hs.
  unfold mret at 1, M_ret at 1. rewrite run_bind.
  unfold dict_update, mret at 1, M_ret at 1. cbn [eq_str].
  apply String.eqb_neq in Hen, Hde. rewrite Hen, Hde.
  rewrite (left_id_L ∅ (∪)). reflexivity.
Qed.

(** X13: without a [language] key the language is [de]: with no [de]
    section either, the resolver only adds [lang = "de"] and
    [doc_lang = "ngerman"] and logs nothing. *)
Theorem resolve_language_default (data : gmap string value) (w : World) :
  data !! "language" = None ->
  data !! "de" = None ->
  resolve_language data w
  = Returns (<["doc_lang" := VStr "ngerman"]> (<["lang" := VStr "de"]> data)) w.
Proof.
  intros Hl Hs. unfold resolve_language, dict_get. rewrite Hl.
  rewrite run_bind. unfold get_lang_data, dict_get. rewrite Hs.
  unfold mret at 1, M_ret at 1. rewrite run_bind.
  unfold dict_update, mret at 1, M_ret at 1. cbn.
  rewrite (left_id_L ∅ (∪)). reflexivity.
Qed.

(** X14: a language section that is empty in the configuration file (the
    value [None]), a number or a truth value cannot be merged: the
    resolver ends with [TypeError] and the world as it was. *)
Theorem resolve_language_bad_section (data : gmap string value) (lang : string)
    (section : value) (w : World) :
  data !! "language" = Some (VStr lang) ->
  data !! lang = Some section ->
  match section with
  | VNone | VBool _ | VInt _ => True
  | _ => False
  end ->
  resolve_language data w = Raises TypeError w.
Proof.
  intros Hl Hs Hbad. unfold resolve_language, dict_get. rewrite Hl.
  rewrite run_bind. unfold get_lang_data, dict_get. rewrite Hs.
  unfold mret at 1, M_ret at 1. rewrite run_bind.
  destruct section; try contradiction; reflexivity.
Qed.

(** ** The attachment validator: further cases *)

(** X15: an [attachments] key with nothing after it in the configuration
    file (the value [None]), a number or a truth value cannot be iterated:
    the validator ends with [TypeError] and the world as it was. *)
Theorem validate_attachments_not_iterable (data : gmap string value)
    (requested : value) (w : World) :
  data !! "attachments" = Some requested ->
  match requested with
  | VNone | VBool _ | VInt _ => True
  | _ => False
  end ->
  validate_attachments data w = Raises TypeError w.
Proof.
  intros Hreq Hbad. unfold validate_attachments, dict_get. rewrite Hreq.
  rewrite run_bind. destruct requested; try contradiction; reflexivity.
Qed.

Lemma validate_loop_app (names : list string) (rest valid : list value) (w : World) :
  validate_loop ((VStr <$> names) ++ rest) valid w
  = validate_loop rest (valid ++ (VStr <$> List.filter (attachment_exists w) names))
      (set_console (console w ++ missing_warnings w names) w).
Proof.
  revert valid w. induction names as [|name names IH]; intros valid w.
  - unfold missing_warnings. simpl. rewrite !app_nil_r. destruct w; reflexivity.
  - cbn [fmap list_fmap app validate_loop]. rewrite run_bind. unfold get at 1.
    unfold missing_warnings. cbn [List.filter].
    destruct (attachment_exists w name) eqn:Hex; cbn [negb].
    + change (list_fmap string value VStr names) with (VStr <$> names).
      rewrite IH. rewrite <- app_assoc. reflexivity.
    + rewrite run_bind. unfold logger at 1, modify at 1.
      change (list_fmap string value VStr names) with (VStr <$> names).
      rewrite IH. cbn. unfold missing_warnings. cbn. rewrite <- app_assoc. reflexivity.
Qed.

(** X16: an entry of the list that is not a string (a number, a nested
    list) ends the validator with [TypeError] when the loop reaches it; the
    warnings for the missing names before it are already on the console. *)
Theorem validate_attachments_bad_entry (data : gmap string value)
    (names : list string) (bad : value) (rest : list value) (w : World) :
  data !! "attachments" = Some (VList ((VStr <$> names) ++ bad :: rest)) ->
  (forall s, bad <> VStr s) ->
  validate_attachments data w
  = Raises TypeError (set_console (console w ++ missing_warnings w names) w).
Proof.
  intros Hreq Hbad. unfold validate_attachments, dict_get. rewrite Hreq.
  rewrite run_bind. unfold iterate, mret at 1, M_ret at 1.
  rewrite run_bind, validate_loop_app. cbn [validate_loop].
  destruct bad as [| | |s| |]; try reflexivity. destruct (Hbad s eq_refl).
Qed.

Lemma filter_filter_same {A} (p : A -> bool) (l : list A) :
  List.filter p (List.filter p l) = List.filter p l.
Proof.
  induction l as [|x l IH]; simpl; [reflexivity|].
  destruct (p x) eqn:Hp; simpl; rewrite ?Hp, IH; reflexivity.
Qed.

Lemma filter_negb_filter {A} (p : A -> bool) (l : list A) :
  List.filter (fun x => negb (p x)) (List.filter p l) = [].
Proof.
  induction l as [|x l IH]; simpl; [reflexivity|].
  destruct (p x) eqn:Hp; simpl; rewrite ?Hp; simpl; exact IH.
Qed.

Lemma filter_split_length {A} (p : A -> bool) (l : list A) :
  length (List.filter p l) + length (List.filter (fun x => negb (p x)) l) = length l.
Proof.
  induction l as [|x l IH]; simpl; [reflexivity|].
  destruct (p x); simpl; lia.
Qed.

Lemma attachments_filtered_run (data : gmap string value) (names : list string)
    (w : World) :
  dict_get data "attachments" (VList []) = VList (VStr <$> names) ->
  validate_attachments data w
  = Returns (<["attachments" := VList (VStr <$> List.filter (attachment_exists w) names)]> data)
      (set_console (console w ++ missing_warnings w names) w)
  /\ (<["attachments" := VList (VStr <$> List.filter (attachment_exists w) names)]> data)
       !! "attachments"
     = Some (VList (VStr <$> List.filter (attachment_exists w) names)).
Proof.
  intros Hreq. split; [|apply lookup_insert_eq].
  unfold validate_attachments. rewrite Hreq. rewrite run_bind.
  unfold iterate, mret at 1, M_ret at 1. rewrite run_bind, validate_loop_run.
  reflexivity.
Qed.

(** X17: every requested name is either kept or warned about, once; and
    the result is stable: validating the validated data again returns the
    same data and adds no line to the console. *)
Theorem validate_attachments_stable (data : gmap string value) (names : list string)
    (w : World) :
  dict_get data "attachments" (VList []) = VList (VStr <$> names) ->
  exists data' w' kept,
    validate_attachments data w = Returns data' w'
    /\ data' !! "attachments" = Some (VList (VStr <$> kept))
    /\ length kept + length (missing_warnings w names) = length names
    /\ validate_attachments data' w' = Returns data' w'.
Proof.
  intros Hreq.
  destruct (attachments_filtered_run data names w Hreq) as (Hrun & Hlk).
  eexists _, _, _. split; [exact Hrun|]. split; [exact Hlk|]. split.
  - unfold missing_warnings. rewrite length_fmap. apply filter_split_length.
  - unfold validate_attachments, dict_get. rewrite lookup_insert_eq.
    rewrite run_bind. unfold iterate, mret at 1, M_ret at 1.
    rewrite run_bind, validate_loop_run. cbn [attachment_exists set_console console].
    unfold missing_warnings. cbn [attachment_exists set_console].
    rewrite filter_filter_same, filter_negb_filter. cbn [fmap list_fmap].
    rewrite app_nil_r, insert_insert_eq. reflexivity.
Qed.

(** ** Rendering and compiling *)

Lemma outside_templates_refl (w : World) : outside_templates_as_in w w.
Proof. repeat split. Qed.

Lemma render_document_run (template : Type)
    (get_template : gmap string content -> string -> option template)
    (render : template -> gmap string value -> option string)
    (template_name output_name : string) (data : gmap string value) (w : World) :
  render_document template get_template render template_name output_name data w
  = match get_template (templates w) template_name with
    | None => Returns tt (logged ERROR (RenderingError template_name) w)
    | Some tpl =>
        match render tpl data with
        | Some s =>
            Returns tt (logged INFO (Generated output_name)
                          (set_templates (<[output_name := Text s]> (templates w)) w))
        | None =>
            Returns tt (logged ERROR (RenderingError template_name)
                          (set_templates (<[output_name := Text ""]> (templates w)) w))
        end
    end.
Proof.
  unfold render_document, try_except. rewrite run_bind. unfold get at 1.
  destruct (get_template (templates w) template_name) as [tpl|]; [|reflexivity].
  rewrite run_bind. unfold modify at 1.
  destruct (render tpl data) as [s|]; reflexivity.
Qed.

(** X18: rendering never raises and writes nothing but its output file.
    Without the template nothing is written; with the template the output
    file holds the rendered text, or is left empty when rendering fails
    (the file is opened for writing before the template is rendered).  One
    line goes to the console. *)
Theorem render_document_outcome (template : Type)
    (get_template : gmap string content -> string -> option template)
    (render : template -> gmap string value -> option string)
    (template_name output_name : string) (data : gmap string value) (w : World) :
  exists w',
    render_document template get_template render template_name output_name data w
      = Returns tt w'
    /\ outside_templates_as_in w w'
    /\ (forall name, name <> output_name -> templates w' !! name = templates w !! name)
    /\ match get_template (templates w) template_name with
       | None =>
           templates w' = templates w
           /\ console w' = (console w ++ [(ERROR, RenderingError template_name)])%list
       | Some tpl =>
           match render tpl data with
           | Some s =>
               templates w' !! output_name = Some (Text s)
               /\ console w' = (console w ++ [(INFO, Generated output_name)])%list
           | None =>
               templates w' !! output_name = Some (Text "")
               /\ console w' = (console w ++ [(ERROR, RenderingError template_name)])%list
           end
       end.
Proof.
  rewrite render_document_run.
  destruct (get_template (templates w) template_name) as [tpl|];
    [destruct (render tpl data) as [s|]|];
    eexists; (split; [reflexivity|]); (split; [repeat split|]); cbn; split;
    try (intros name Hne; apply lookup_insert_ne; congruence);
    try (split; [apply lookup_insert_eq|reflexivity]).
  - reflexivity.
  - split; reflexivity.
Qed.

Lemma compile_latex_run (xelatex : gmap string content -> string -> process)
    (tex_file : string) (w : World) :
  compile_latex xelatex tex_file w
  = match xelatex (templates w) tex_file with
    | Exited returncode stderr cwd =>
        Returns tt
          (logged (if (returncode =? 0)%Z then INFO else ERROR)
                  (if (returncode =? 0)%Z then PdfCreated
                   else CompilingError tex_file stderr)
                  (set_templates cwd (logged INFO (Compiling tex_file) w)))
    | NotStarted (CalledProcessError stderr) =>
        Returns tt (logged ERROR (CompilingError tex_file stderr)
                      (logged INFO (Compiling tex_file) w))
    | NotStarted e => Raises e (logged INFO (Compiling tex_file) w)
    end.
Proof.
  unfold compile_latex, try_except. rewrite run_bind.
  unfold logger at 1, modify at 1. rewrite run_bind. unfold get at 1.
  change (templates (set_console _ w)) with (templates w).
  destruct (xelatex (templates w) tex_file) as [e|returncode stderr cwd].
  - destruct e; reflexivity.
  - rewrite run_bind. unfold modify at 1.
    destruct (returncode =? 0)%Z; reflexivity.
Qed.

(** X19: the compiler step.  When the compiler ran, the step returns
    whatever the return code: [TEMPLATE_DIR] is as the compiler left it
    and the console gets "Compiling" and then the success line (code 0) or
    an error line with the standard error.  When the compiler cannot be
    started, the exception is not handled: it leaves the step after the
    "Compiling" line. *)
Theorem compile_latex_outcome (xelatex : gmap string content -> string -> process)
    (tex_file : string) (w : World) :
  match xelatex (templates w) tex_file with
  | Exited returncode stderr cwd =>
      exists w',
        compile_latex xelatex tex_file w = Returns tt w'
        /\ templates w' = cwd
        /\ outside_templates_as_in w w'
        /\ console w'
           = (console w ++
              [(INFO, Compiling tex_file);
               if (returncode =? 0)%Z then (INFO, PdfCreated)
               else (ERROR, CompilingError tex_file stderr)])%list
  | NotStarted e =>
      match e with
      | CalledProcessError _ => True
      | _ => compile_latex xelatex tex_file w
             = Raises e (logged INFO (Compiling tex_file) w)
      end
  end.
Proof.
  rewrite compile_latex_run.
  destruct (xelatex (templates w) tex_file) as [e|returncode stderr cwd].
  - destruct e; reflexivity || exact I.
  - eexists. split; [reflexivity|]. cbn. split; [reflexivity|].
    split; [repeat split|]. rewrite <- app_assoc.
    destruct (returncode =? 0)%Z; reflexivity.
Qed.

Lemma compiling_lines_app (l1 l2 : list (level * message)) :
  compiling_lines (l1 ++ l2) = (compiling_lines l1 ++ compiling_lines l2)%list.
Proof. apply flat_map_app. Qed.

Lemma outside_templates_trans (w1 w2 w3 : World) :
  outside_templates_as_in w1 w2 -> outside_templates_as_in w2 w3 ->
  outside_templates_as_in w1 w3.
Proof.
  unfold outside_templates_as_in, inputs_as_in.
  intros ((?&?&?&?&?)&?&?&?) ((?&?&?&?&?)&?&?&?).
  repeat split; congruence.
Qed.

Lemma build_loop_run (template : Type)
    (get_template : gmap string content -> string -> option template)
    (render : template -> gmap string value -> option string)
    (xelatex : gmap string content -> string -> process)
    (data : gmap string value) (docs : list (string * string)) (w : World) :
  (forall dir tex_file, exists returncode stderr cwd,
      xelatex dir tex_file = Exited returncode stderr cwd) ->
  exists w' lines,
    for_each docs
      (fun '(template_name, output) =>
         render_document template get_template render template_name output data;;
         compile_latex xelatex output) w
      = Returns tt w'
    /\ outside_templates_as_in w w'
    /\ console w' = (console w ++ lines)%list
    /\ compiling_lines lines = snd <$> docs.
Proof.
  intros Hx. revert w. induction docs as [|[t o] docs IH]; intros w.
  - exists w, []. split; [reflexivity|]. split; [apply outside_templates_refl|].
    split; [rewrite app_nil_r; reflexivity|reflexivity].
  - cbn [for_each]. rewrite run_bind, run_bind, render_document_run.
    set (r := match get_template (templates w) t with
              | Some tpl => _
              | None => _
              end).
    assert (Hr : exists w1 line,
               r = Returns tt w1 /\ outside_templates_as_in w w1
               /\ console w1 = (console w ++ [line])%list
               /\ compiling_lines [line] = []).
    { unfold r. destruct (get_template (templates w) t) as [tpl|];
        [destruct (render tpl data)|];
        eexists _, _; (split; [reflexivity|]); (split; [repeat split|]);
        (split; [reflexivity|reflexivity]). }
    destruct Hr as (w1 & line & -> & Ho1 & Hc1 & Hl1).
    rewrite compile_latex_run.
    destruct (Hx (templates w1) o) as (code & err & cwd & ->).
    match goal with
    | |- context [for_each docs ?body ?w2] => destruct (IH w2) as (w' & lines & Hrun & Ho & Hc & Hl)
    end.
    exists w', (line :: (INFO, Compiling o)
                :: (if (code =? 0)%Z then INFO else ERROR,
                    if (code =? 0)%Z then PdfCreated else CompilingError o err)
                :: lines).
    split; [exact Hrun|]. split.
    + eapply outside_templates_trans; [exact Ho1|].
      eapply outside_templates_trans; [|exact Ho]. repeat split.
    + split.
      * rewrite Hc. cbn. rewrite Hc1, <- !app_assoc. reflexivity.
      * change (line :: ?l) with ([line] ++ l)%list.
        rewrite compiling_lines_app, Hl1. cbn [app compiling_lines flat_map snd].
        destruct (code =? 0)%Z; cbn; f_equal; exact Hl.
Qed.

(** X20: the pipeline goes on after failures.  When the compiler can be
    started, the loop over the four documents returns whatever rendering
    and compiling did, touches nothing outside [TEMPLATE_DIR], and the
    console shows that the four files were compiled in the fixed order. *)
Theorem pipeline_compiles_every_document (template : Type)
    (get_template : gmap string content -> string -> option template)
    (render : template -> gmap string value -> option string)
    (xelatex : gmap string content -> string -> process)
    (data : gmap string value) (w : World) :
  (forall dir tex_file, exists returncode stderr cwd,
      xelatex dir tex_file = Exited returncode stderr cwd) ->
  exists w' lines,
    for_each docs_to_build
      (fun '(template_name, output) =>
         render_document template get_template render template_name output data;;
         compile_latex xelatex output) w
      = Returns tt w'
    /\ outside_templates_as_in w w'
    /\ console w' = (console w ++ lines)%list
    /\ compiling_lines lines
       = ["attachments.tex"; "cv.tex"; "application_letter.tex"; "main.tex"].
Proof.
  intros Hx.
  apply (build_loop_run template get_template render xelatex data docs_to_build w Hx).
Qed.

(** ** What a whole run touches *)

Section Invariant.

Variable I : World -> Prop.
Hypothesis I_logged : forall l m w, I w -> I (logged l m w).
Hypothesis I_templates : forall t w, I w -> I (set_templates t w).
Hypothesis I_applications : forall a w, I w -> I (set_applications a w).

Lemma triple_bind {A B} (m : M A) (f : A -> M B) (Q : World -> Prop) :
  keeps I m -> (forall a, triple I (f a) Q I) -> triple I (m ≫= f) Q I.
Proof.
  intros Hm Hf w Hw. specialize (Hm w Hw). rewrite run_bind.
  destruct (m w) as [a w'|e w'|]; [|exact Hm|exact Logic.I].
  apply (Hf a w' Hm).
Qed.

Lemma keeps_bind {A B} (m : M A) (f : A -> M B) :
  keeps I m -> (forall a, keeps I (f a)) -> keeps I (m ≫= f).
Proof. apply triple_bind. Qed.

Lemma keeps_triple {A} (m : M A) : keeps I m -> triple I m (fun _ => True) I.
Proof.
  intros Hm w Hw. specialize (Hm w Hw).
  destruct (m w); [exact Logic.I|exact Hm|exact Logic.I].
Qed.

Lemma keeps_ret {A} (a : A) : keeps I (mret a).
Proof. intros w Hw. exact Hw. Qed.

Lemma keeps_raise {A} (e : exn) : keeps I (@raise A e).
Proof. intros w Hw. exact Hw. Qed.

Lemma keeps_unmodelled {A} : keeps I (@unmodelled A).
Proof. intros w Hw. exact Logic.I. Qed.

Lemma keeps_get {A} (f : World -> A) : keeps I (get f).
Proof. intros w Hw. exact Hw. Qed.

Lemma keeps_modify (f : World -> World) :
  (forall w, I w -> I (f w)) -> keeps I (modify f).
Proof. intros H w Hw. exact (H w Hw). Qed.

Lemma keeps_logger (l : level) (m : message) : keeps I (logger l m).
Proof. apply keeps_modify. intros w Hw. apply (I_logged l m w Hw). Qed.

Lemma keeps_try {A} (body : M A) (handler : exn -> M A) :
  keeps I body -> (forall e, keeps I (handler e)) -> keeps I (try_except body handler).
Proof.
  intros Hb Hh w Hw. specialize (Hb w Hw). unfold try_except.
  destruct (body w) as [a w'|e w'|]; [exact Hb| |exact Logic.I].
  apply (Hh e w' Hb).
Qed.

Lemma keeps_for_each {A} (l : list A) (body : A -> M unit) :
  (forall x, keeps I (body x)) -> keeps I (for_each l body).
Proof.
  intros H. induction l as [|x l IH]; cbn [for_each].
  - apply keeps_ret.
  - apply keeps_bind; [apply H|intros _; exact IH].
Qed.

Ltac keeps_step :=
  lazymatch goal with
  | |- keeps _ (mret _) => apply keeps_ret
  | |- keeps _ (raise _) => apply keeps_raise
  | |- keeps _ (get _) => apply keeps_get
  | |- keeps _ unmodelled => apply keeps_unmodelled
  | |- keeps _ (logger _ _) => apply keeps_logger
  | |- keeps _ (try_except _ _) => apply keeps_try; [|intros ?]
  | |- keeps _ (_ ≫= _) => apply keeps_bind; [|intros ?]
  | |- keeps _ (match ?x with _ => _ end) => destruct x
  end.

Lemma keeps_load_config : keeps I load_config.
Proof. unfold load_config. repeat keeps_step. Qed.

Lemma keeps_resolve_language (data : gmap string value) : keeps I (resolve_language data).
Proof.
  unfold resolve_language, get_lang_data, dict_update. repeat keeps_step.
Qed.

Lemma keeps_validate_loop (names valid : list value) : keeps I (validate_loop names valid).
Proof.
  revert valid. induction names as [|doc_name names IH]; intros valid;
    cbn [validate_loop]; [apply keeps_ret|].
  destruct doc_name; try apply keeps_raise.
  apply keeps_bind; [apply keeps_get|intros exists_].
  destruct (exists_ s); [apply IH|].
  apply keeps_bind; [apply keeps_logger|intros _; apply IH].
Qed.

Lemma keeps_validate_attachments (data : gmap string value) :
  keeps I (validate_attachments data).
Proof.
  unfold validate_attachments, iterate.
  apply keeps_bind; [repeat keeps_step|intros names].
  apply keeps_bind; [apply keeps_validate_loop|intros valid]. apply keeps_ret.
Qed.

Lemma keeps_load_content (data : gmap string value) : keeps I (load_content data).
Proof. unfold load_content. repeat keeps_step. Qed.

Lemma keeps_render_document (template : Type)
    (get_template : gmap string content -> string -> option template)
    (render : template -> gmap string value -> option string)
    (template_name output_name : string) (data : gmap string value) :
  keeps I (render_document template get_template render template_name output_name data).
Proof.
  intros w Hw. rewrite render_document_run.
  destruct (get_template (templates w) template_name) as [tpl|];
    [destruct (render tpl data)|]; auto.
Qed.

Lemma keeps_compile_latex (xelatex : gmap string content -> string -> process)
    (tex_file : string) :
  keeps I (compile_latex xelatex tex_file).
Proof.
  intros w Hw. rewrite compile_latex_run.
  destruct (xelatex (templates w) tex_file) as [e|returncode stderr cwd];
    [destruct e|]; auto.
Qed.

Lemma keeps_mkdir (f : string) : keeps I (mkdir f).
Proof.
  apply keeps_modify. intros w Hw. destruct (applications w !! f); auto.
Qed.

Lemma keeps_write_target (f name : string) (c : content) : keeps I (write_target f name c).
Proof.
  unfold write_target. apply keeps_bind; [apply keeps_get|intros a].
  destruct (a !! f); [|apply keeps_raise].
  apply keeps_modify. intros w Hw. auto.
Qed.

Lemma keeps_shutil_move (src f dst : string) : keeps I (shutil_move src f dst).
Proof.
  unfold shutil_move. apply keeps_bind; [apply keeps_get|intros t].
  destruct (t !! src); [|apply keeps_raise].
  apply keeps_bind; [apply keeps_write_target|intros _].
  apply keeps_modify. intros w Hw. auto.
Qed.

Lemma keeps_shutil_copy (src : option content) (f dst : string) :
  keeps I (shutil_copy src f dst).
Proof. destruct src; [apply keeps_write_target|apply keeps_raise]. Qed.

Lemma keeps_archive_results (data : gmap string value) : keeps I (archive_results data).
Proof.
  unfold archive_results, str_receiver.
  repeat first
    [ keeps_step
    | apply keeps_mkdir | apply keeps_shutil_move | apply keeps_shutil_copy
    | apply keeps_for_each; intros ? ].
Qed.

Lemma keeps_log_to_history (data : gmap string value) :
  (forall h w, I w -> I (set_history h w)) -> keeps I (log_to_history data).
Proof.
  intros I_history.
  unfold log_to_history, check_and_append, read_csv, column, series_eq,
    loc_append, to_csv.
  repeat first
    [ keeps_step
    | apply keeps_modify; intros ? ?; auto ].
Qed.

(** The run up to and without the history logger ends in [I]; so does a
    run that ends with an exception. *)
Lemma main_triple (template : Type)
    (get_template : gmap string content -> string -> option template)
    (render : template -> gmap string value -> option string)
    (xelatex : gmap string content -> string -> process)
    (Q : World -> Prop) :
  (forall data, triple I (log_to_history data) Q I) ->
  (forall w, I w -> Q w) ->
  triple I (main template get_template render xelatex) Q I.
Proof.
  intros Hlog HQ. unfold main.
  apply triple_bind; [apply keeps_load_config|intros data].
  destruct (negb (truthy data)).
  { intros w Hw. apply HQ. apply (keeps_logger ERROR ErrorLoadingData w Hw). }
  apply triple_bind; [destruct data; repeat keeps_step|intros d].
  apply triple_bind; [apply keeps_resolve_language|intros d1].
  apply triple_bind; [apply keeps_validate_attachments|intros d2].
  apply triple_bind; [apply keeps_load_content|intros d3].
  apply triple_bind.
  { apply keeps_for_each. intros [t o].
    apply keeps_bind; [apply keeps_render_document|intros _].
    apply keeps_compile_latex. }
  intros _. apply triple_bind; [apply keeps_logger|intros _].
  apply triple_bind; [apply keeps_archive_results|intros _]. apply Hlog.
Qed.

End Invariant.


Lemma log_to_history_never_raises (data : gmap string value) (w w' : World) (e : exn) :
  log_to_history data w <> Raises e w'.
Proof.
  destruct (application_history_csv w) as [h|] eqn:Hh.
  - rewrite log_to_history_try by congruence.
    destruct (check_and_append _ _ _ _ w); discriminate.
  - rewrite log_to_history_absent by exact Hh. discriminate.
Qed.

(** X22: a run only reads its inputs and only adds to the console.
    However [main] ends, the configuration file, the two text files, the
    attachments and the clock are as before, and the console is the old
    console with lines added at the end. *)
Theorem main_reads_inputs_only (template : Type)
    (get_template : gmap string content -> string -> option template)
    (render : template -> gmap string value -> option string)
    (xelatex : gmap string content -> string -> process) (w : World) :
  match main template get_template render xelatex w with
  | Returns _ w' | Raises _ w' => inputs_as_in w w' /\ console_extends w w'
  | Unmodelled => True
  end.
Proof.
  set (I := fun w' => inputs_as_in w w' /\ console_extends w w').
  assert (HI : I w) by (split; [repeat split|exists []; rewrite app_nil_r; reflexivity]).
  assert (Hlog : forall l m w', I w' -> I (logged l m w')).
  { intros l m w' [Hin [lines Hl]]. split; [exact Hin|].
    exists (lines ++ [(l, m)])%list. cbn. rewrite Hl, <- app_assoc. reflexivity. }
  pose proof (main_triple I Hlog ltac:(intros; assumption) ltac:(intros; assumption)
                template get_template render xelatex I) as Hmain.
  specialize (Hmain
    (fun data => keeps_log_to_history I Hlog data ltac:(intros; assumption))
    (fun _ H => H) w HI).
  destruct (main template get_template render xelatex w); exact Hmain.
Qed.

(** X23: a run that ends with an exception has not touched the history
    table: the logger is the last step and never raises. *)
Theorem failed_run_logs_nothing (template : Type)
    (get_template : gmap string content -> string -> option template)
    (render : template -> gmap string value -> option string)
    (xelatex : gmap string content -> string -> process) (w w' : World) (e : exn) :
  main template get_template render xelatex w = Raises e w' ->
  application_history_csv w' = application_history_csv w.
Proof.
  intros Hrun.
  set (I := fun w1 => application_history_csv w1 = application_history_csv w).
  pose proof (main_triple I ltac:(intros; assumption) ltac:(intros; assumption)
                ltac:(intros; assumption)
                template get_template render xelatex (fun _ => True)) as Hmain.
  assert (Hlog : forall data, triple I (log_to_history data) (fun _ => True) I).
  { intros data w1 Hw1. destruct (log_to_history data w1) as [a w2|e2 w2|] eqn:Hl;
      [exact Logic.I| |exact Logic.I].
    destruct (log_to_history_never_raises data w1 w2 e2 Hl). }
  specialize (Hmain Hlog (fun _ _ => Logic.I) w eq_refl).
  rewrite Hrun in Hmain. exact Hmain.
Qed.

(** X21: a configuration that cannot be opened or parsed, or that is
    truthy without being a mapping (a list, a string, a number), ends the
    run with the exception, before anything is logged or written. *)
Theorem main_rejects_bad_config (template : Type)
    (get_template : gmap string content -> string -> option template)
    (render : template -> gmap string value -> option string)
    (xelatex : gmap string content -> string -> process) (w : World) (e : exn) :
  config_yaml w = Some (inl e)
  \/ (exists v, config_yaml w = Some (inr v) /\ truthy v = true
                /\ (forall d, v <> VMap d) /\ e = AttributeError) ->
  main template get_template render xelatex w = Raises e w.
Proof.
  intros H. unfold main. rewrite run_bind. unfold load_config.
  rewrite run_bind. unfold get at 1.
  destruct H as [Hc|(v & Hc & Hv & Hd & ->)]; rewrite Hc; [reflexivity|].
  unfold mret at 1, M_ret at 1. rewrite Hv. cbn [negb]. rewrite run_bind.
  destruct v as [| | | | |d]; try reflexivity. destruct (Hd d eq_refl).
Qed.

(** ** The further properties on sample data *)

Lemma archive_folder_name_safe_witness :
  dict_get Sample.application "company" (VStr "unknown_company") = VStr "Acme Corp"
  /\ Str.all lower_class "2024-03-01_acme_corp_senior_eng-lead" = true.
Proof.
  split; [reflexivity|].
  destruct (archive_folder_name_safe Sample.application Sample.world
              "Acme Corp" "Senior Eng/Lead" eq_refl eq_refl) as (f & -> & Hf & _).
  exact Hf.
Defined.

Lemma archive_default_names_witness :
  Cases.config_plain !! "company" = None
  /\ ensures (archive_results Cases.config_plain) Sample.world
       (archived_into Sample.world "2024-03-01_unknown_company_job").
Proof.
  split; [reflexivity|].
  apply (archive_default_names Cases.config_plain Sample.world); reflexivity.
Defined.

Lemma archive_rejects_non_strings_witness :
  archive_results Cases.config_numbers Sample.world
  = Raises AttributeError Sample.world.
Proof.
  apply (archive_rejects_non_strings Cases.config_numbers Sample.world).
  left. intros s. vm_compute. discriminate.
Defined.

Lemma archive_no_rollback_witness :
  templates Cases.partly_compiled !! "application_letter.pdf" = None
  /\ exists w' d,
       archive_results Sample.application Cases.partly_compiled
         = Raises FileNotFoundError w'
       /\ applications w' !! "2024-03-01_acme_corp_senior_eng-lead" = Some d
       /\ d !! "cv.pdf" = Some (Binary 1)
       /\ templates w' !! "cv.pdf" = None.
Proof.
  split; [reflexivity|].
  destruct (archive_no_rollback Sample.application Cases.partly_compiled
              "Acme Corp" "Senior Eng/Lead" (Binary 1))
    as (w' & d & Hrun & Hf & Hcv & Ht & _); try reflexivity.
  exists w', d. repeat split; assumption.
Defined.

Lemma archive_results_files_witness :
  templates Sample.world !! "main.pdf" = Some (Binary 4)
  /\ exists w' d,
       archive_results Sample.application Sample.world = Returns tt w'
       /\ applications w' !! "2024-03-01_acme_corp_senior_eng-lead" = Some d
       /\ d !! "cv.pdf" = Some (Binary 1)
       /\ d !! "application_letter_text.txt" = Some (Text "An older draft")
       /\ d !! "application_acme_corp_senior_eng-lead.pdf" = Some (Binary 4)
       /\ templates w' !! "cv.pdf" = None.
Proof.
  split; [reflexivity|].
  destruct (archive_results_files Sample.application Sample.world
              "Acme Corp" "Senior Eng/Lead" (Binary 1) (Binary 2) (Binary 3)
              (inr (VMap Sample.config)) "An older draft")
    as (w' & d & Hrun & Hf & (Hcv & _ & _ & _ & Htxt) & Hmain & (Ht & _) & _);
    try reflexivity.
  change (templates Sample.world !! "main.pdf") with (Some (Binary 4)) in Hmain.
  destruct Hmain as [Hmain _].
  exists w', d. repeat split; assumption.
Defined.

Lemma history_column_count_mismatch_witness :
  length (columns Cases.wide_history) = 5
  /\ log_to_history Sample.application (Cases.with_history Cases.wide_history)
     = Returns tt (logged ERROR (LoggingError ValueError)
                     (Cases.with_history Cases.wide_history)).
Proof.
  split; [reflexivity|].
  apply (history_column_count_mismatch (Cases.with_history Cases.wide_history)
           Sample.application Cases.wide_history "Acme Corp" "Senior Eng/Lead");
    try reflexivity.
  cbn. lia.
Defined.

Lemma history_check_ignores_week_witness :
  log_to_history Sample.application (Cases.with_history Cases.history_other_week)
  = Returns tt (logged INFO (EntryExists (VStr "Acme Corp"))
                  (Cases.with_history Cases.history_other_week)).
Proof.
  apply (history_check_ignores_week (Cases.with_history Cases.history_other_week)
           Sample.application Cases.history_other_week "Acme Corp" "Senior Eng/Lead"
           (VStr "tbd") []); try reflexivity.
  right. left. reflexivity.
Defined.

Lemma history_default_names_witness :
  Cases.config_plain !! "company" = None
  /\ exists w',
       log_to_history Cases.config_plain Sample.world = Returns tt w'
       /\ history_file w'
          = Some (inr {| header := history_columns;
                         records := [["2024-02-27"; "9"; "Initech"; "Developer"];
                                     ["2024-03-01"; "9"; "Unknown"; "Unknown"]] |}).
Proof.
  split; [reflexivity|].
  apply (history_default_names Sample.world Cases.config_plain Sample.history);
    reflexivity.
Defined.

Lemma resolve_language_merge_witness :
  exists data' w',
    resolve_language Sample.config Sample.world = Returns data' w'
    /\ data' !! "company" = Some (VStr "Acme")
    /\ data' !! "job_title" = Some (VStr "Engineer").
Proof.
  destruct (resolve_language_merge Sample.config {[ "company" := VStr "Acme" ]} "en"
              Sample.world eq_refl eq_refl) as (data' & w' & Hrun & _ & Hkeys).
  exists data', w'. split; [exact Hrun|]. split.
  - rewrite Hkeys by discriminate. reflexivity.
  - rewrite Hkeys by discriminate. reflexivity.
Defined.

Lemma resolve_language_unknown_witness :
  resolve_language Cases.config_fr Sample.world
  = Returns (<["lang" := VStr "fr"]> Cases.config_fr)
      (logged CRITICAL (NoValidLanguage (VStr "fr")) Sample.world).
Proof.
  apply (resolve_language_unknown Cases.config_fr "fr" Sample.world);
    try reflexivity; discriminate.
Defined.

Lemma resolve_language_default_witness :
  resolve_language Sample.application Sample.world
  = Returns (<["doc_lang" := VStr "ngerman"]>
               (<["lang" := VStr "de"]> Sample.application)) Sample.world.
Proof.
  apply (resolve_language_default Sample.application Sample.world); reflexivity.
Defined.

Lemma resolve_language_bad_section_witness :
  resolve_language Cases.config_empty_section Sample.world
  = Raises TypeError Sample.world.
Proof.
  apply (resolve_language_bad_section Cases.config_empty_section "en" VNone
           Sample.world); [reflexivity|reflexivity|exact I].
Defined.

Lemma validate_attachments_not_iterable_witness :
  validate_attachments Cases.config_no_attachments Sample.world
  = Raises TypeError Sample.world.
Proof.
  apply (validate_attachments_not_iterable Cases.config_no_attachments VNone
           Sample.world); [reflexivity|exact I].
Defined.

Lemma validate_attachments_bad_entry_witness :
  validate_attachments Cases.config_bad_entry Sample.world
  = Raises TypeError (logged WARNING (AttachmentMissing "b.pdf") Sample.world).
Proof.
  apply (validate_attachments_bad_entry Cases.config_bad_entry ["b.pdf"] (VInt 7)
           [VStr "a.pdf"] Sample.world); [reflexivity|discriminate].
Defined.

Lemma validate_attachments_stable_witness :
  exists data' w',
    validate_attachments Sample.config Sample.world = Returns data' w'
    /\ validate_attachments data' w' = Returns data' w'.
Proof.
  destruct (validate_attachments_stable Sample.config ["a.pdf"; "b.pdf"] Sample.world
              eq_refl) as (data' & w' & kept & Hrun & _ & _ & Hagain).
  exists data', w'. split; assumption.
Defined.

Lemma pipeline_compiles_every_document_witness :
  exists w' lines,
    for_each docs_to_build
      (fun '(template_name, output) =>
         render_document string Sample.get_template Sample.render
           template_name output Sample.application;;
         compile_latex Sample.xelatex output) Sample.world
      = Returns tt w'
    /\ console w' = lines
    /\ compiling_lines lines
       = ["attachments.tex"; "cv.tex"; "application_letter.tex"; "main.tex"].
Proof.
  destruct (pipeline_compiles_every_document string Sample.get_template
              Sample.render Sample.xelatex Sample.application Sample.world)
    as (w' & lines & Hrun & _ & Hc & Hl).
  { intros dir tex_file. eexists _, _, _. reflexivity. }
  exists w', lines. split; [exact Hrun|]. split; [exact Hc|exact Hl].
Defined.

Lemma main_rejects_bad_config_witness :
  truthy (VList [VStr "language"; VStr "en"]) = true
  /\ main string Sample.get_template Sample.render Sample.xelatex
       Cases.world_list_config
     = Raises AttributeError Cases.world_list_config.
Proof.
  split; [reflexivity|].
  apply (main_rejects_bad_config string Sample.get_template Sample.render
           Sample.xelatex Cases.world_list_config AttributeError).
  right. eexists. split; [reflexivity|]. split; [reflexivity|].
  split; [discriminate|reflexivity].
Defined.

Lemma failed_run_logs_nothing_witness :
  exists w',
    sample_main Sample.world_one_letter = Raises FileNotFoundError w'
    /\ application_history_csv w' = Some (inr Sample.history).
Proof.
  assert (H : sample_main Sample.world_one_letter
              = Raises FileNotFoundError
                  (final_world (sample_main Sample.world_one_letter)
                     Sample.world_one_letter))
    by (apply raised_final; vm_compute; reflexivity).
  eexists. split; [exact H|].
  rewrite (failed_run_logs_nothing string Sample.get_template Sample.render
             Sample.xelatex Sample.world_one_letter _ FileNotFoundError H).
  vm_compute. reflexivity.
Defined.
